(** * FCG-Analysis: the feature-extraction pipeline of [generate_csv.py]

    A shallow embedding of [src/generate_csv.py] and the properties of its
    L-moment estimator, feature-row builder, resume ledger and sinks.

    Python floats and numpy's [float64] are Rocq's primitive binary64 floats,
    so the arithmetic of the estimator is evaluated bit for bit.  Sets are
    stdpp's [gset], CSV files are lists of rows, and the calls into
    [networkx], [numpy] and [lmoments3] are modelled by definitions that
    carry the name of the call they stand for.  The pool of workers is
    modelled by the order in which it hands the results back and the order
    in which the rows its workers append reach the failure file. *)

From Stdlib Require Import ZArith QArith Qabs List String Ascii Floats Permutation DecimalString.
From stdpp Require Import base list strings gmap sets.

Local Open Scope Z_scope.

(** ** Python values *)

(** A Python number as the program produces them: an [int] or a [float]. *)
Inductive pynum : Type :=
  | PyInt (z : Z)
  | PyFloat (f : float).

(** The outcome of a call that may raise: the value, or the text of the
    exception ([str(e)]). *)
Inductive result (A : Type) : Type :=
  | Ok (a : A)
  | Raise (msg : string).
Arguments Ok {A} a.
Arguments Raise {A} msg.

#[global] Instance result_ret : MRet result := fun A a => Ok a.
#[global] Instance result_bind : MBind result := fun A B k r =>
  match r with
  | Ok a => k a
  | Raise msg => Raise msg
  end.
#[global] Instance result_fmap : FMap result := fun A B f r =>
  match r with
  | Ok a => Ok (f a)
  | Raise msg => Raise msg
  end.

(** [float(z)] for a Python int: round to nearest even. *)
Definition Z2F (z : Z) : float := SF2Prim (binary_normalize prec emax z 0 false).

(** ** The numpy and scipy calls of the estimator *)

Module np.

(** [np.isfinite] on one element. *)
Definition isfinite (x : float) : bool := PrimFloat.is_finite x.

(** [values[np.isfinite(values)]]: boolean-mask selection keeps the order. *)
Definition select_finite (values : list float) : list float :=
  List.filter isfinite values.

Fixpoint insert_sorted (x : float) (l : list float) : list float :=
  match l with
  | [] => [x]
  | y :: l' => if (x <=? y)%float then x :: l else y :: insert_sorted x l'
  end.

(** [x.sort()]: ascending order. *)
Definition sort (l : list float) : list float :=
  fold_right insert_sorted [] l.

(** numpy adds a contiguous run of floats pairwise ([pairwise_sum] of
    numpy's [loops_utils.h]), in the arithmetic [add] of the element type:
    fewer than eight elements one after the other from [-0.0]; up to 128
    elements with eight running sums over the leading groups of eight,
    combined two by two, and the rest added one after the other; a longer
    run split in two near the middle, at a multiple of eight. *)
Section Pairwise.

Variable add : float -> float -> float.

Fixpoint unrolled (r0 r1 r2 r3 r4 r5 r6 r7 : float) (a : list float) : float :=
  match a with
  | a0 :: a1 :: a2 :: a3 :: a4 :: a5 :: a6 :: a7 :: a' =>
      unrolled (add r0 a0) (add r1 a1) (add r2 a2) (add r3 a3)
               (add r4 a4) (add r5 a5) (add r6 a6) (add r7 a7) a'
  | _ =>
      fold_left add a
        (add (add (add r0 r1) (add r2 r3)) (add (add r4 r5) (add r6 r7)))
  end.

Definition block (a : list float) : float :=
  match a with
  | a0 :: a1 :: a2 :: a3 :: a4 :: a5 :: a6 :: a7 :: a' =>
      unrolled a0 a1 a2 a3 a4 a5 a6 a7 a'
  | _ => fold_left add a neg_zero
  end.

(** [depth] bounds the number of splits; the length of the run is more
    than enough ([pairwise_sum_rec_depth]). *)
Fixpoint pairwise_sum_rec (depth : nat) (a : list float) : float :=
  match depth with
  | S depth' =>
      if (128 <? length a)%nat
      then
        let n2 := (length a / 2 - (length a / 2) mod 8)%nat in
        add (pairwise_sum_rec depth' (firstn n2 a))
            (pairwise_sum_rec depth' (skipn n2 a))
      else block a
  | O => block a
  end.

Definition pairwise_sum (a : list float) : float :=
  pairwise_sum_rec (length a) a.

(** [np.add.reduce] over one run: the pairwise sum added to the initial
    value, [-0.0] in current numpy (older ones start from [0.0]; the two
    differ only in the sign of a sum that is zero); [0.0] for an empty
    run. *)
Definition add_reduce (a : list float) : float :=
  match a with
  | [] => 0%float
  | _ :: _ => add neg_zero (pairwise_sum a)
  end.

End Pairwise.

(** [np.sum(x)] of a one-dimensional [float64] array. *)
Definition sum (l : list float) : float := add_reduce PrimFloat.add l.

(** [.astype(np.float32)] on one element: round to binary32.  The values
    of [np.float32] are kept as the binary64 floats they are equal to. *)
Definition astype_float32 (x : float) : float :=
  match Prim2SF x with
  | S754_finite s m e => SF2Prim (binary_round 24 128 s m e)
  | _ => x
  end.

(** Addition of two [np.float32]: the binary64 sum rounded to binary32
    (the two roundings agree, 53 being at least 2 * 24 + 2). *)
Definition add_float32 (x y : float) : float := astype_float32 (x + y)%float.

(** [np.sum(a, axis=1)] of a two-dimensional [float32] array in C order:
    one sum per row, every row a contiguous run added up in [float32]. *)
Definition sum_axis1 (a : list (list float)) : list float :=
  map (add_reduce add_float32) a.

End np.

(** The builtin [sum] over a list of [np.float64]: a left fold from int [0]. *)
Definition py_sum (l : list float) : float :=
  fold_left PrimFloat.add l (Z2F 0).

(** [scipy.special.comb(n, k, exact=True)]: the binomial coefficient. *)
Fixpoint comb (n k : nat) : Z :=
  match k, n with
  | O, _ => 1
  | S _, O => 0
  | S k', S n' => comb n' k' + comb n' k
  end.

(** ** [lmoments3.lmom_ratios(data, nmom=4)] *)

Module lmoments.

Section Small.
(** The sorted sample and its size. *)
Variable x : list float.
Let n : nat := length x.
Let comb1 (i : nat) : Z := Z.of_nat i.
Let comb3 (i : nat) : Z := comb i 2.
Let comb5 (i : nat) : Z := comb i 3.

(** [sum([c(i) * x[i] for i in range(n)])] *)
Definition sum_xtrans (c : nat -> Z) : float :=
  py_sum (imap (fun i xi => (Z2F (c i) * xi)%float) x).

Definition l1 : float := (np.sum x / Z2F (comb n 1))%float.

Definition coefl2 : float := (0.5 / Z2F (comb n 2))%float.
Definition sum_xtrans2 : float :=
  sum_xtrans (fun i => comb1 i - comb1 (n - i - 1)).
Definition l2 : float := (coefl2 * sum_xtrans2)%float.

Definition coefl3 : float := (1 / 3 / Z2F (comb n 3))%float.
Definition sum_xtrans3 : float :=
  sum_xtrans (fun i => comb3 i - 2 * comb1 i * comb1 (n - i - 1)
                       + comb3 (n - i - 1)).
Definition l3 : float := (coefl3 * sum_xtrans3 / l2)%float.

Definition coefl4 : float := (0.25 / Z2F (comb n 4))%float.
Definition sum_xtrans4 : float :=
  sum_xtrans (fun i => comb5 i - 3 * comb3 i * comb1 (n - i - 1)
                       + 3 * comb1 i * comb3 (n - i - 1)
                       - comb5 (n - i - 1)).
Definition l4 : float := (coefl4 * sum_xtrans4 / l2)%float.
End Small.

(** [_samlmusmall(x, 4)]: the sample is sorted, fewer than [nmom] values
    raise [ValueError], and the third and fourth entries are the ratios
    [l3 / l2] and [l4 / l2] as the division of [np.float64] gives them. *)
Definition lmom_ratios (data : list float) : result (float * float * float * float) :=
  let x := np.sort data in
  if (length x <? 4)%nat
  then Raise "Insufficient length of data for specified nmoments"
  else Ok (l1 x, l2 x, l3 x, l4 x).

End lmoments.

(** ** [calculate_lmoments] *)

Definition calculate_lmoments (values : list float)
  : result (pynum * pynum * pynum * pynum) :=
  let values := np.select_finite values in
  if (length values <? 4)%nat
  then Ok (PyInt 0, PyInt 0, PyInt 0, PyInt 0)
  else
    lmom ← lmoments.lmom_ratios values;
    let '(m0, m1, m2, m3) := lmom in
    Ok (PyFloat m0, PyFloat m1, PyFloat m2, PyFloat m3).

(** ** Python strings and paths *)

Module py.

(** [str.isspace] on one character of the Latin-1 range. *)
Definition isspace (c : ascii) : bool :=
  match c with
  | "009" | "010" | "011" | "012" | "013"
  | "028" | "029" | "030" | "031" | " " | "133" | "160" => true
  | _ => false
  end%char.

Fixpoint lstrip (s : string) : string :=
  match s with
  | EmptyString => EmptyString
  | String c s' => if isspace c then lstrip s' else s
  end.

Fixpoint rstrip (s : string) : string :=
  match s with
  | EmptyString => EmptyString
  | String c s' =>
      match rstrip s' with
      | EmptyString => if isspace c then EmptyString else String c EmptyString
      | r => String c r
      end
  end.

(** [s.strip()] *)
Definition strip (s : string) : string := rstrip (lstrip s).

(** [s.startswith(p)] *)
Definition startswith (s p : string) : bool := String.prefix p s.

(** [s.endswith(suffix)] *)
Fixpoint endswith (s suffix : string) : bool :=
  if String.eqb s suffix then true
  else match s with
       | EmptyString => false
       | String _ s' => endswith s' suffix
       end.

(** [os.path.join(a, b)] of [posixpath]. *)
Definition path_join (a b : string) : string :=
  if startswith b "/" then b
  else if String.eqb a "" || endswith a "/" then a +:+ b
  else a +:+ "/" +:+ b.

(** [str(z)] for an int. *)
Definition str_int (z : Z) : string :=
  DecimalString.NilZero.string_of_int (Z.to_int z).

End py.

(** ** Directed graphs and the networkx calls *)

(** The [weight] attribute of an edge as [to_numpy_array] finds it: none,
    a value that converts to a float, or a text that does not. *)
Inductive weight_attr : Type :=
  | NoWeight
  | Weight (w : float)
  | NotANumber (text : string).

(** A [networkx.DiGraph]: the nodes in insertion order and, for every edge,
    its end points and its [weight] attribute. *)
Record DiGraph : Type := {
  nodes : list string;
  edges : list (string * string * weight_attr);
}.

Module nx.

Definition number_of_nodes (G : DiGraph) : Z := Z.of_nat (length (nodes G)).
Definition number_of_edges (G : DiGraph) : Z := Z.of_nat (length (edges G)).

Definition successors (G : DiGraph) (u : string) : list string :=
  omap (fun e => let '(a, b, _) := e in if String.eqb a u then Some b else None)
       (edges G).
Definition predecessors (G : DiGraph) (v : string) : list string :=
  omap (fun e => let '(a, b, _) := e in if String.eqb b v then Some a else None)
       (edges G).

(** [G.degree()] of a directed graph: in-degree plus out-degree. *)
Definition degree (G : DiGraph) (u : string) : Z :=
  Z.of_nat (length (successors G u) + length (predecessors G u)).

(** [nx.density(G)] *)
Definition density (G : DiGraph) : pynum :=
  let n := number_of_nodes G in
  let m := number_of_edges G in
  if (m =? 0) || (n <=? 1) then PyInt 0
  else PyFloat (Z2F m / Z2F (n * (n - 1)))%float.

(** [G.to_undirected()]: the same nodes, every edge usable both ways. *)
Record Graph : Type := { of_digraph : DiGraph }.
Definition to_undirected (G : DiGraph) : Graph := {| of_digraph := G |}.
Definition neighbors (U : Graph) (u : string) : list string :=
  successors (of_digraph U) u ++ predecessors (of_digraph U) u.

Definition visited (seen : list (string * Z)) (v : string) : bool :=
  existsb (fun p => String.eqb (fst p) v) seen.

(** The nodes first reached from the frontier, each once. *)
Definition next_level (adj : string -> list string)
    (seen : list (string * Z)) (frontier : list string) : list string :=
  fold_left (fun acc v =>
               if visited seen v || existsb (String.eqb v) acc
               then acc else acc ++ [v])
            (concat (map adj frontier)) [].

(** Breadth-first search by levels; every level but the last reaches a new
    node, so as many rounds as there are nodes exhaust the graph. *)
Fixpoint bfs (adj : string -> list string) (fuel : nat)
    (seen : list (string * Z)) (frontier : list string) (d : Z)
    : list (string * Z) :=
  match fuel, frontier with
  | O, _ | _, [] => seen
  | S fuel', _ =>
      let next := next_level adj seen frontier in
      bfs adj fuel' (seen ++ map (fun v => (v, d + 1)) next) next (d + 1)
  end.

(** [nx.single_source_shortest_path_length(G, source)] as the list of the
    reached nodes with their distances. *)
Definition shortest_path_length (adj : string -> list string) (order : nat)
    (source : string) : list (string * Z) :=
  bfs adj order [(source, 0)] [source] 0.

(** [nx.is_connected(U)] *)
Definition is_connected (U : Graph) : result bool :=
  let order := length (nodes (of_digraph U)) in
  match nodes (of_digraph U) with
  | [] => Raise "Connectivity is undefined for the null graph."
  | s :: _ => Ok (length (shortest_path_length (neighbors U) order s) =? order)%nat
  end.

Definition py_max (l : list Z) : result Z :=
  match l with
  | [] => Raise "max() arg is an empty sequence"
  | z :: l' => Ok (fold_left Z.max l' z)
  end.

(** [nx.eccentricity(G)] of a directed graph, over its own (directed)
    shortest paths: a node that does not reach every node raises. *)
Definition eccentricity (G : DiGraph) : result (list Z) :=
  let order := length (nodes G) in
  mapM (fun n =>
          let length := shortest_path_length (successors G) order n in
          if negb (List.length length =? order)%nat
          then Raise "Found infinite path length because the digraph is not strongly connected"
          else py_max (map snd length))
       (nodes G).

(** [nx.diameter(G)] *)
Definition diameter (G : DiGraph) : result Z :=
  e ← eccentricity G; py_max e.

(** [nx.average_shortest_path_length(G)] of a directed graph. *)
Definition average_shortest_path_length (G : DiGraph) : result pynum :=
  let n := number_of_nodes G in
  if n =? 0
  then Raise "the null graph has no paths, thus there is no average shortest path length"
  else if n =? 1 then Ok (PyInt 0)
  else
    weakly ← is_connected (to_undirected G);
    if negb weakly then Raise "Graph is not weakly connected."
    else
      let s := fold_left Z.add
                 (concat (map (fun u => map snd
                    (shortest_path_length (successors G) (length (nodes G)) u))
                    (nodes G))) 0 in
      Ok (PyFloat (Z2F s / Z2F (n * (n - 1)))%float).

(** [nx.degree_centrality(G)], the normalized degree centrality, which the
    program does not call: it is here to be compared with. *)
Definition degree_centrality (G : DiGraph) : list float :=
  if (length (nodes G) <=? 1)%nat then map (fun _ => 1%float) (nodes G)
  else
    let s := (1 / (Z2F (Z.of_nat (length (nodes G))) - 1))%float in
    map (fun n => (Z2F (degree G n) * s)%float) (nodes G).

(** The number [to_numpy_array] stores for an edge: its weight, [1] when
    it has none; a text that is no number makes the assignment to the
    [float64] array raise [ValueError]. *)
Definition weight_value (w : weight_attr) : result float :=
  match w with
  | NoWeight => Ok 1%float
  | Weight x => Ok x
  | NotANumber text => Raise ("could not convert string to float: '" +:+ text +:+ "'")
  end.

(** The entry for the pair [(u, v)]: the number of the edge, [0.0] when
    there is no edge. *)
Definition entry (es : list (string * string * float)) (u v : string) : float :=
  match List.find (fun e => let '(a, b, _) := e in String.eqb a u && String.eqb b v)
                  es with
  | Some (_, _, x) => x
  | None => 0%float
  end.

(** [nx.to_numpy_array(G)]: rows and columns in node order. *)
Definition to_numpy_array (G : DiGraph) : result (list (list float)) :=
  es ← mapM (fun e : string * string * weight_attr =>
               let '(a, b, w) := e in x ← weight_value w; Ok (a, b, x))
            (edges G);
  Ok (map (fun u => map (fun v => entry es u v) (nodes G)) (nodes G)).

End nx.

(** The sum of a list of integers. *)
Definition total (ks : list Z) : Z := foldr Z.add 0 ks.

(** Whether the [float32] sum of the floats of two integers is the float of
    their sum, and whether adding the float of an integer to [-0.0] gives
    it back. *)
Definition exact_sum (a b : Z) : bool :=
  PrimFloat.Leibniz.eqb (np.add_float32 (Z2F a) (Z2F b)) (Z2F (a + b)).
Definition exact_start (a : Z) : bool :=
  PrimFloat.Leibniz.eqb (np.add_float32 neg_zero (Z2F a)) (Z2F a).

(** The out-degree of a node: the number of edges that leave it. *)
Definition out_degree (G : DiGraph) (u : string) : Z :=
  Z.of_nat (length (filter (fun e : string * string * weight_attr => e.1.1 = u)
                      (edges G))).

(** No edge of the graph has a [weight] attribute. *)
Definition unweighted (G : DiGraph) : Prop :=
  Forall (fun e : string * string * weight_attr => e.2 = NoWeight) (edges G).

(** There is one edge at most from a node to a node, as in every [DiGraph]. *)
Definition simple (G : DiGraph) : Prop := NoDup (edges G).*1.

(** [w] is reached from [u] along the directed edges of [G]. *)
Inductive reachable (G : DiGraph) (u : string) : string -> Prop :=
  | reachable_refl : reachable G u u
  | reachable_step (v w : string) :
      reachable G u v -> w ∈ nx.successors G v -> reachable G u w.

(** What networkx keeps true of a graph: a node is listed once and the end
    points of every edge are nodes. *)
Definition well_formed (G : DiGraph) : Prop :=
  NoDup (nodes G)
  /\ Forall (fun e : string * string * weight_attr =>
               e.1.1 ∈ nodes G /\ e.1.2 ∈ nodes G) (edges G).

(** ** CSV files *)

(** A row as [csv.reader] yields it and [csv.writer] stores it. *)
Definition csv_row : Type := list string.

(** The content of a CSV file; [None] when the file does not exist.  A file
    of size zero is [Some []]. *)
Definition csv_file : Type := option (list csv_row).

(** The two files of the program. *)
Record files : Type := {
  lmoments_csv : csv_file;
  unprocessed_files_csv : csv_file;
}.

(** [open(path, 'a')] followed by [writer.writerow(row)]. *)
Definition append_row (row : csv_row) (f : csv_file) : csv_file :=
  Some (default [] f ++ [row]).

(** The file after the rows [rows] were appended one by one. *)
Definition append_rows (rows : list csv_row) (f : csv_file) : csv_file :=
  fold_left (fun f row => append_row row f) rows f.

(** [out] is an interleaving of the lists [ls]: it takes, element after
    element, the front of one of the lists until all are used up.  Every
    list keeps its order; lists do not wait for each other. *)
Inductive interleaving {A : Type} : list (list A) -> list A -> Prop :=
  | interleaving_done (ls : list (list A)) :
      Forall (fun l => l = []) ls -> interleaving ls []
  | interleaving_take (ls1 : list (list A)) (x : A) (l : list A)
      (ls2 : list (list A)) (out : list A) :
      interleaving (ls1 ++ l :: ls2) out ->
      interleaving (ls1 ++ (x :: l) :: ls2) (x :: out).

(** A field of a feature row before it is written. *)
Inductive cell : Type :=
  | CStr (s : string)
  | CNum (x : pynum).

Definition columns : csv_row :=
  ["Filename"; "Malicious/Nonmalicious"; "Number of Nodes"; "Number of Edges";
   "Average Degree"; "Density"; "Diameter"; "Average Clustering";
   "Average Path Length";
   "Degree L1"; "Degree L2"; "Degree T3"; "Degree T4";
   "Betweenness L1"; "Betweenness L2"; "Betweenness T3"; "Betweenness T4";
   "Closeness L1"; "Closeness L2"; "Closeness T3"; "Closeness T4";
   "Clustering L1"; "Clustering L2"; "Clustering T3"; "Clustering T4"].

(** ** The calls whose values are left open *)

(** What the program takes from outside and no property below looks into:
    the parse of a file of the corpus, the clustering, betweenness and
    closeness values, and the text [str] gives a float. *)
Record Library : Type := {
  read_dot : string -> result DiGraph;
  average_clustering : nx.Graph -> result float;
  betweenness_centrality : DiGraph -> result (list float);
  closeness_centrality : DiGraph -> result (list float);
  clustering : nx.Graph -> result (list float);
  repr_float : float -> string;
}.

(** The literal messages [process_file] records, by kind of rejection. *)
Inductive rejection : Type :=
  | EmptyGraph
  | StatisticsError
  | ZeroNodes
  | CentralityError.

Definition message (r : rejection) : string :=
  match r with
  | EmptyGraph => "Graph is empty or couldn't be parsed."
  | StatisticsError => "Error calculating statistics"
  | ZeroNodes => "Number of nodes is zero"
  | CentralityError => "Error calculating centrality measures"
  end.

Section Pipeline.

Variable lib : Library.

(** ** [log_unprocessed_file] *)
Definition log_unprocessed_file (file_path error_message : string)
    (log : csv_file) : csv_file :=
  append_row [file_path; error_message] log.

(** ** [calculate_degree_centrality] *)
Definition calculate_degree_centrality (adj_matrix : list (list float))
    : list float :=
  np.sum_axis1 adj_matrix.

(** ** [parse_network_data] *)
Definition parse_network_data (file_path : string) (log : csv_file)
    : option DiGraph * csv_file :=
  match read_dot lib file_path with
  | Ok G => (Some G, log)
  | Raise e => (None, log_unprocessed_file file_path ("Error parsing: " +:+ e) log)
  end.

(** ** [calculate_statistics] *)
Definition statistics : Type := Z * Z * pynum * pynum * pynum * pynum * pynum.

Definition calculate_statistics (G : DiGraph) : option statistics :=
  let body : result statistics :=
    let num_nodes := nx.number_of_nodes G in
    let num_edges := nx.number_of_edges G in
    let sum_degree := fold_left Z.add (map (nx.degree G) (nodes G)) 0 in
    let avg_degree :=
      if 0 <? num_nodes
      then PyFloat (Z2F sum_degree / Z2F num_nodes)%float
      else PyInt 0 in
    let density := nx.density G in
    connected ← nx.is_connected (nx.to_undirected G);
    diameter ← (if connected : bool then PyInt <$> nx.diameter G
                else Ok (PyFloat nan));
    avg_clustering_coefficient ← average_clustering lib (nx.to_undirected G);
    connected' ← nx.is_connected (nx.to_undirected G);
    avg_path_length ← (if connected' : bool then nx.average_shortest_path_length G
                       else Ok (PyFloat nan));
    Ok (num_nodes, num_edges, avg_degree, density, diameter,
        PyFloat avg_clustering_coefficient, avg_path_length) in
  match body with
  | Ok stats => Some stats
  | Raise _ => None
  end.

(** ** [calculate_centrality_measures] *)
Definition calculate_centrality_measures (G : DiGraph)
    : option (list float) * option (list float)
      * option (list float) * option (list float) :=
  let body :=
    adj_matrix ← map (map np.astype_float32) <$> nx.to_numpy_array G;
    let degree_centrality := calculate_degree_centrality adj_matrix in
    betweenness ← betweenness_centrality lib G;
    closeness ← closeness_centrality lib G;
    clustering_centrality ← clustering lib (nx.to_undirected G);
    Ok (degree_centrality, betweenness, closeness, clustering_centrality) in
  match body with
  | Ok (d, b, c, k) => (Some d, Some b, Some c, Some k)
  | Raise _ => (None, None, None, None)
  end.

(** [calculate_lmoments] on what [calculate_centrality_measures] returned;
    [np.isfinite] raises [TypeError] on the array made of [None]. *)
Definition calculate_lmoments_of (values : option (list float))
    : result (pynum * pynum * pynum * pynum) :=
  match values with
  | Some v => calculate_lmoments v
  | None => Raise "ufunc 'isfinite' not supported for the input types"
  end.

(** [list(t)] of a 4-tuple of numbers, as cells. *)
Definition cells_of (t : pynum * pynum * pynum * pynum) : list cell :=
  let '(a, b, c, d) := t in [CNum a; CNum b; CNum c; CNum d].

(** ** [process_file]

    [processed_files] is the global as the worker sees it.  The result is
    what the worker returns together with the failure file after the
    worker's own appends to it, for a worker that runs alone. *)
Definition process_file (processed_files : gset string)
    (args : string * bool) (log : csv_file) : option (list cell) * csv_file :=
  let '(file_path, is_malicious) := args in
  if bool_decide (file_path ∈ processed_files) then (None, log)
  else
    let '(G, log) := parse_network_data file_path log in
    match G with
    | None => (None, log_unprocessed_file file_path (message EmptyGraph) log)
    | Some G =>
      if (nx.number_of_nodes G =? 0) || (nx.number_of_edges G =? 0)
      then (None, log_unprocessed_file file_path (message EmptyGraph) log)
      else
        let malware_name : string :=
          if is_malicious then "Malicious" else "Nonmalicious" in
        match calculate_statistics G with
        | None => (None, log_unprocessed_file file_path (message StatisticsError) log)
        | Some (num_nodes, num_edges, avg_degree, density, diameter,
                avg_clustering_coefficient, avg_path_length) =>
          if num_nodes =? 0
          then (None, log_unprocessed_file file_path (message ZeroNodes) log)
          else
            let '(degree_centrality, betweenness, closeness, clustering_centrality) :=
              calculate_centrality_measures G in
            match degree_centrality with
            | None =>
                (None, log_unprocessed_file file_path (message CentralityError) log)
            | Some _ =>
                let body : result (list cell) :=
                  degree_lmoments ← calculate_lmoments_of degree_centrality;
                  betweenness_lmoments ← calculate_lmoments_of betweenness;
                  closeness_lmoments ← calculate_lmoments_of closeness;
                  clustering_lmoments ← calculate_lmoments_of clustering_centrality;
                  Ok ([CStr file_path; CStr malware_name;
                       CNum (PyInt num_nodes); CNum (PyInt num_edges);
                       CNum avg_degree; CNum density; CNum diameter;
                       CNum avg_clustering_coefficient; CNum avg_path_length]
                      ++ cells_of degree_lmoments
                      ++ cells_of betweenness_lmoments
                      ++ cells_of closeness_lmoments
                      ++ cells_of clustering_lmoments) in
                match body with
                | Ok row => (Some row, log)
                | Raise e =>
                    (None, log_unprocessed_file file_path ("Error processing: " +:+ e) log)
                end
            end
        end
    end.

(** ** [write_result_to_csv] *)

(** [csv.writer] writes the text of every field. *)
Definition str_cell (c : cell) : string :=
  match c with
  | CStr s => s
  | CNum (PyInt z) => py.str_int z
  | CNum (PyFloat f) => repr_float lib f
  end.

Definition write_result_to_csv (row : list cell) (csvfile : csv_file) : csv_file :=
  match row with
  | [] => csvfile
  | _ :: _ => append_row (map str_cell row) csvfile
  end.

(** ** [get_processed_files] *)

(** The arguments of [processed_files.add], in order: the header row is
    skipped, empty rows are passed over, the first field is stripped. *)
Definition ledger_entries (csvfile : csv_file) : list string :=
  match csvfile with
  | None => []
  | Some rows => omap (fun row => py.strip <$> head row) (tail rows)
  end.

Definition get_processed_files (csvfile : csv_file) : gset string :=
  list_to_set (ledger_entries csvfile).

(** ** [main] *)

(** What [os.walk] yields for one top directory: every directory with the
    names of its files, in the order of the walk. *)
Definition walk : Type := list (string * list string).

(** One of the two enumeration loops of [main]. *)
Definition enumerate (w : walk) (label : bool) (processed_files : gset string)
    : list (string * bool) :=
  concat (map (fun d : string * list string =>
    let (root, filenames) := d in
    omap (fun filename =>
            if py.endswith filename ".dot"
            then let file_path := py.path_join root filename in
                 if bool_decide (file_path ∈ processed_files) then None
                 else Some (file_path, label)
            else None)
         filenames) w).

(** The state the orchestrator's loop works on. *)
Record orchestrator : Type := {
  fs : files;
  processed_files : gset string;
  processed_files_count : nat;
}.

(** ** The pool

    A worker of the pool runs [process_file] on an item with its own copy
    of the global, taken when the pool started.  What it hands back and the
    rows it appends to the failure file do not depend on what that file
    holds, and appending is all it does to the file
    ([process_file_effect]); both are read off a run on an absent file. *)

(** The rows a worker appends to the failure file for an item, in order. *)
Definition failure_rows (worker_set : gset string) (item : string * bool)
    : list csv_row :=
  default [] (process_file worker_set item None).2.

(** One round of the loop over [pool.imap_unordered]: the orchestrator
    counts the item a worker has handed back and writes the row when there
    is one.  It does not touch the failure file. *)
Definition collect (worker_set : gset string) (st : orchestrator)
    (item : string * bool) : orchestrator :=
  match (process_file worker_set item None).1 with
  | Some ((first :: _) as row) =>
      {| fs := {| lmoments_csv := write_result_to_csv row (lmoments_csv (fs st));
                  unprocessed_files_csv := unprocessed_files_csv (fs st) |};
         processed_files := {[str_cell first]} ∪ processed_files st;
         processed_files_count := S (processed_files_count st) |}
  | _ =>
      {| fs := {| lmoments_csv := lmoments_csv (fs st);
                  unprocessed_files_csv := unprocessed_files_csv (fs st) |};
         processed_files := processed_files st;
         processed_files_count := S (processed_files_count st) |}
  end.

(** The order in which the pool hands the results back. *)
Variable completion_order : list (string * bool) -> list (string * bool).

(** The order in which the appends of the workers reach the failure file,
    given the rows of every item: the workers run side by side, each
    opening the file to append one row at a time, so the rows of one item
    keep their order and the rows of different items mix ([interleaving]);
    a row reaches the file whole. *)
Variable append_order : list (list csv_row) -> list csv_row.

Definition file_paths_of (malicious nonmalicious : walk)
    (processed_files : gset string) : list (string * bool) :=
  enumerate malicious true processed_files
  ++ enumerate nonmalicious false processed_files.

Definition main (malicious nonmalicious : walk) (fs0 : files) : orchestrator :=
  let log :=
    match unprocessed_files_csv fs0 with
    | None => Some [["Filename"; "Error Message"]]
    | Some rows => Some rows
    end in
  let processed_files := get_processed_files (lmoments_csv fs0) in
  let file_paths := file_paths_of malicious nonmalicious processed_files in
  match file_paths with
  | [] =>
      {| fs := {| lmoments_csv := lmoments_csv fs0; unprocessed_files_csv := log |};
         processed_files := processed_files;
         processed_files_count := 0 |}
  | _ :: _ =>
      let csvfile : csv_file := Some (default [] (lmoments_csv fs0)) in
      let csvfile :=
        match csvfile with
        | Some [] => append_row columns csvfile
        | _ => csvfile
        end in
      let log :=
        append_rows
          (append_order (map (failure_rows processed_files) file_paths)) log in
      fold_left (collect processed_files) (completion_order file_paths)
        {| fs := {| lmoments_csv := csvfile; unprocessed_files_csv := log |};
           processed_files := processed_files;
           processed_files_count := 0 |}
  end.

End Pipeline.

(** ** The L-moments in closed form

    The estimator as the specification words it, over exact rationals: the
    probability-weighted moments [b r] of the sorted sample, each order
    statistic weighted by the ratio of binomial coefficients of its rank and
    of the sample size, and the L-moments derived from them.  It is compared
    below with what [calculate_lmoments] computes. *)

Module pwm.

Fixpoint insert_sorted (q : Q) (l : list Q) : list Q :=
  match l with
  | [] => [q]
  | y :: l' => if Qle_bool q y then q :: l else y :: insert_sorted q l'
  end.

Definition sort (l : list Q) : list Q := fold_right insert_sorted [] l.

Definition b (r : nat) (sample : list Q) : Q :=
  let x := sort sample in
  let n := length x in
  (fold_right Qplus 0
     (imap (fun i xi => inject_Z (comb i r) / inject_Z (comb (n - 1) r) * xi) x)
   / inject_Z (Z.of_nat n))%Q.

Definition L1 (x : list Q) : Q := b 0 x.
Definition L2 (x : list Q) : Q := (2 * b 1 x - b 0 x)%Q.
Definition L3 (x : list Q) : Q := (6 * b 2 x - 6 * b 1 x + b 0 x)%Q.
Definition L4 (x : list Q) : Q :=
  (20 * b 3 x - 30 * b 2 x + 12 * b 1 x - b 0 x)%Q.
Definition t3 (x : list Q) : Q := (L3 x / L2 x)%Q.
Definition t4 (x : list Q) : Q := (L4 x / L2 x)%Q.

End pwm.

(** The rational a finite float stands for. *)
Definition float_to_Q (f : float) : option Q :=
  match Prim2SF f with
  | S754_zero _ => Some 0%Q
  | S754_finite s m e =>
      let v := (inject_Z (Zpos m) * Qpower 2 e)%Q in
      Some (if s then (- v)%Q else v)
  | _ => None
  end.

(** [f] is finite and within [tol] of [q]. *)
Definition within (tol : Q) (f : float) (q : Q) : bool :=
  match float_to_Q f with
  | Some v => Qle_bool (Qabs (v - q)) tol
  | None => false
  end.

(** A walk whose directories all lie under [top]: every root starts with
    the name of the top directory, as the roots of [os.walk(top)] do. *)
Definition rooted (top : string) (w : walk) : Prop :=
  Forall (fun d : string * list string => py.startswith d.1 top = true) w.

(** The rows the orchestrator's loop writes for the items it is handed, in
    the order of the items: one for every item for which the worker returned
    a row that is not empty. *)
Definition written (lib : Library) (worker_set : gset string)
    (items : list (string * bool)) : list csv_row :=
  omap (fun item =>
          match (process_file lib worker_set item None).1 with
          | Some (c :: cs) => Some (map (str_cell lib) (c :: cs))
          | _ => None
          end) items.

(** Successive runs of [main], each with the order in which its pool hands
    the results back, the order in which the appends of its workers reach
    the failure file, and the corpus of its day. *)
Definition runs (lib : Library)
    (days : list ((list (string * bool) -> list (string * bool))
                  * (list (list csv_row) -> list csv_row) * walk * walk))
    (fs0 : files) : files :=
  fold_left (fun f day => fs (main lib day.1.1.1 day.1.1.2 day.1.2 day.2 f))
    days fs0.

(** The rows the result file starts with once [main] has opened it and
    seen to the header: what was there, or the header when nothing was. *)
Definition base_rows (f : csv_file) : list csv_row :=
  match default [] f with
  | [] => [columns]
  | r :: l => r :: l
  end.

(** Whether the worker returns, for the item, a row that the orchestrator
    writes. *)
Definition has_row (lib : Library) (worker_set : gset string)
    (item : string * bool) : bool :=
  match (process_file lib worker_set item None).1 with
  | Some (_ :: _) => true
  | _ => false
  end.

(** The rows the workers of a run append to the failure file, item by
    item. *)
Definition recorded (lib : Library) (worker_set : gset string)
    (items : list (string * bool)) : list (list csv_row) :=
  map (failure_rows lib worker_set) items.

(** The appends of the workers reach the file in turn: the first row of
    every item, then the second row of every item, and so on. *)
Fixpoint round_robin {A : Type} (rounds : nat) (ls : list (list A)) : list A :=
  match rounds with
  | O => []
  | S rounds' => omap head ls ++ round_robin rounds' (map tail ls)
  end.

Definition in_turn {A : Type} (ls : list (list A)) : list A :=
  round_robin (length (concat ls)) ls.

(** Every node is reached from every node along the directed edges. *)
Definition strongly_connected (G : DiGraph) : Prop :=
  forall u w, u ∈ nodes G -> w ∈ nodes G -> reachable G u w.

(** A result file with at most one header: absent, empty, or the header
    followed by rows none of which is the header. *)
Definition headed_once (f : csv_file) : Prop :=
  match f with
  | None | Some [] => True
  | Some (r :: rows) => r = columns /\ columns ∉ rows
  end.

(** The failure file once [main] has seen to its header. *)
Definition log_rows (f : csv_file) : list csv_row :=
  match f with
  | None => [["Filename"; "Error Message"]]
  | Some rows => rows
  end.

(** ** Sample inputs *)

Module sample.

Definition edge (u v : string) : string * string * weight_attr :=
  (u, v, NoWeight).

(** One edge [a -> b]: connected once undirected, not strongly connected. *)
Definition G_ab : DiGraph :=
  {| nodes := ["a"; "b"]; edges := [edge "a" "b"] |}.

(** A directed triangle: strongly connected. *)
Definition G_cycle : DiGraph :=
  {| nodes := ["a"; "b"; "c"];
     edges := [edge "a" "b"; edge "b" "c"; edge "c" "a"] |}.

(** Two components, each a pair of opposite edges. *)
Definition G_two : DiGraph :=
  {| nodes := ["a"; "b"; "c"; "d"];
     edges := [edge "a" "b"; edge "b" "a"; edge "c" "d"; edge "d" "c"] |}.

(** A star [a -> b], [a -> c]. *)
Definition G_star : DiGraph :=
  {| nodes := ["a"; "b"; "c"]; edges := [edge "a" "b"; edge "a" "c"] |}.

(** Two opposite edges: strongly connected. *)
Definition G_pair : DiGraph :=
  {| nodes := ["a"; "b"]; edges := [edge "a" "b"; edge "b" "a"] |}.

(** Eight nodes; [a] has a loop of weight [2^24] and an edge to each of
    the seven others. *)
Definition G8 : DiGraph :=
  {| nodes := ["a"; "b"; "c"; "d"; "e"; "f"; "g"; "h"];
     edges := [("a", "a", Weight 16777216); edge "a" "b"; edge "a" "c";
               edge "a" "d"; edge "a" "e"; edge "a" "f"; edge "a" "g";
               edge "a" "h"] |}.

(** Two opposite edges, one of weight [0.1]. *)
Definition G_tenth : DiGraph :=
  {| nodes := ["a"; "b"];
     edges := [("a", "b", Weight 0x1.999999999999ap-4); edge "b" "a"] |}.

(** Two opposite edges, one with a weight that is no number. *)
Definition G_heavy : DiGraph :=
  {| nodes := ["a"; "b"];
     edges := [("a", "b", NotANumber "heavy"); edge "b" "a"] |}.

(** The files that can be read, with simple stand-ins for the calls left
    open; every other path is a file that cannot be parsed. *)
Definition lib : Library :=
  {| read_dot p :=
       if String.eqb p "Malicious/cycle.dot" then Ok G_cycle
       else if String.eqb p "Malicious/sub/two.dot" then Ok G_two
       else if String.eqb p "Nonmalicious/pair.dot" then Ok G_pair
       else if String.eqb p "Malicious/ab.dot" then Ok G_ab
       else if String.eqb p "Malicious/heavy.dot" then Ok G_heavy
       else Raise "syntax error";
     average_clustering _ := Ok 0%float;
     betweenness_centrality G := Ok (map (fun _ => 0%float) (nodes G));
     closeness_centrality G := Ok (map (fun _ => 1%float) (nodes G));
     clustering U := Ok (map (fun _ => 0%float) (nodes (nx.of_digraph U)));
     repr_float f :=
       if PrimFloat.Leibniz.eqb f 0 then "0.0"
       else if PrimFloat.Leibniz.eqb f 1 then "1.0"
       else if PrimFloat.Leibniz.eqb f 2 then "2.0"
       else if PrimFloat.is_nan f then "nan"
       else "float" |}.

(** A corpus of three graph files. *)
Definition malicious : walk :=
  [("Malicious", ["cycle.dot"; "notes.txt"]); ("Malicious/sub", ["two.dot"])].
Definition nonmalicious : walk := [("Nonmalicious", ["pair.dot"])].

(** A corpus with a file that does not parse. *)
Definition malicious_broken : walk :=
  [("Malicious", ["cycle.dot"; "broken.dot"])].

(** A corpus with two files that do not parse. *)
Definition malicious_unreadable : walk :=
  [("Malicious", ["x.dot"; "y.dot"])].

Definition no_files : files :=
  {| lmoments_csv := None; unprocessed_files_csv := None |}.

(** A result file left by a run that was stopped after two files. *)
Definition prior : csv_file :=
  Some [columns;
        ["Malicious/cycle.dot"; "Malicious"];
        ["Malicious/sub/two.dot "; "Malicious"]].

End sample.

(** * Properties *)

(** ** Floating-point facts *)

Section FloatFacts.

Lemma Prim2SF_is_zero (y : float) :
  is_zero y = true -> exists s, Prim2SF y = S754_zero s.
Proof.
  unfold is_zero. rewrite FloatAxioms.eqb_spec.
  destruct (Prim2SF y) as [s|s| |s m e] eqn:E; cbn; try discriminate; eauto.
  all: destruct s; discriminate.
Qed.

Lemma is_finite_SF (r : float) :
  Prim2SF r = S754_nan \/ (exists s, Prim2SF r = S754_infinity s) ->
  is_finite r = false.
Proof.
  unfold is_finite, is_nan, is_infinity.
  rewrite !FloatAxioms.eqb_spec, FloatAxioms.abs_spec.
  intros [-> | [s ->]]; [reflexivity|].
  destruct s; reflexivity.
Qed.

(** A quotient by zero is never finite: NaN for [0 / 0] and [nan / 0],
    an infinity otherwise. *)
Lemma div_zero_not_finite (x y : float) :
  is_zero y = true -> is_finite (x / y) = false.
Proof.
  intros [s Hy]%Prim2SF_is_zero. apply is_finite_SF.
  rewrite FloatAxioms.div_spec, Hy.
  destruct (Prim2SF x) as [sx|sx| |sx mx ex]; cbn; eauto.
Qed.

End FloatFacts.

(** ** The L-moment estimator *)

Lemma insert_sorted_length (x : float) (l : list float) :
  length (np.insert_sorted x l) = S (length l).
Proof.
  induction l as [|y l IH]; cbn; [reflexivity|].
  destruct (x <=? y)%float; cbn; congruence.
Qed.

Lemma sort_length (l : list float) : length (np.sort l) = length l.
Proof.
  induction l as [|x l IH]; cbn; [reflexivity|].
  rewrite insert_sorted_length. unfold np.sort in IH. congruence.
Qed.

(** [np.sum] adds pairwise: ten times [0.1] sum to [1.0], where adding them
    one after the other gives the float below it; and the depth given to
    the recursion is enough for any run. *)
Lemma np_sum_pairwise :
  let tenths := repeat 0x1.999999999999ap-4%float 10 in
  np.sum tenths = 1%float
  /\ fold_left PrimFloat.add tenths 0%float = 0x1.fffffffffffffp-1%float
  /\ np.sum (map Z2F (seqZ 1 300)) = 45150%float.
Proof. cbv zeta. repeat split; vm_compute; reflexivity. Qed.

(** With four finite values or more the estimator is [lmom_ratios] of the
    finite values, with nothing changed. *)
Lemma calculate_lmoments_enough (values : list float) :
  (4 <= length (np.select_finite values))%nat ->
  let x := np.sort (np.select_finite values) in
  calculate_lmoments values =
    Ok (PyFloat (lmoments.l1 x), PyFloat (lmoments.l2 x),
        PyFloat (lmoments.l3 x), PyFloat (lmoments.l4 x)).
Proof.
  intros Hlen x. unfold calculate_lmoments, lmoments.lmom_ratios.
  rewrite sort_length.
  destruct (Nat.ltb_spec (length (np.select_finite values)) 4) as [?|_]; [lia|].
  reflexivity.
Qed.

(** C4. Fewer than four finite values, once the non-finite entries are
    discarded, give exactly [(0, 0, 0, 0)] as a normal result. *)
Theorem calculate_lmoments_degenerate (values : list float) :
  (length (np.select_finite values) < 4)%nat ->
  calculate_lmoments values = Ok (PyInt 0, PyInt 0, PyInt 0, PyInt 0).
Proof.
  intros Hlen. unfold calculate_lmoments.
  destruct (Nat.ltb_spec (length (np.select_finite values)) 4) as [_|?]; [reflexivity|lia].
Qed.

Lemma calculate_lmoments_degenerate_witness :
  calculate_lmoments [1; 2]%float = Ok (PyInt 0, PyInt 0, PyInt 0, PyInt 0)
  /\ calculate_lmoments [nan; nan; nan; nan; 5]%float
     = Ok (PyInt 0, PyInt 0, PyInt 0, PyInt 0).
Proof.
  split; apply calculate_lmoments_degenerate; vm_compute; lia.
Defined.

(** C3, as the code has it. With four finite values or more the estimator
    returns the four values of [lmom_ratios] and does not raise; nothing
    guards the case of a second L-moment equal to zero, where the ratios are
    quotients by zero and so are not finite. *)
Theorem calculate_lmoments_zero_scale (values : list float) :
  (4 <= length (np.select_finite values))%nat ->
  exists l1 l2 t3 t4,
    calculate_lmoments values = Ok (PyFloat l1, PyFloat l2, PyFloat t3, PyFloat t4)
    /\ (is_zero l2 = true -> is_finite t3 = false /\ is_finite t4 = false).
Proof.
  intros Hlen. rewrite (calculate_lmoments_enough values Hlen).
  do 4 eexists. split; [reflexivity|].
  intros Hz. split; apply div_zero_not_finite, Hz.
Qed.

Lemma calculate_lmoments_zero_scale_witness :
  exists l1 l2 t3 t4,
    calculate_lmoments [1; 1; 1; 1]%float
      = Ok (PyFloat l1, PyFloat l2, PyFloat t3, PyFloat t4)
    /\ (is_zero l2 = true -> is_finite t3 = false /\ is_finite t4 = false).
Proof.
  apply calculate_lmoments_zero_scale. vm_compute. lia.
Defined.

(** Four identical values: the second L-moment is zero and both ratios are
    NaN, where the ratios were said to be zero. *)
Lemma calculate_lmoments_identical_values :
  (4 <= length (np.select_finite [1; 1; 1; 1]%float))%nat
  /\ calculate_lmoments [1; 1; 1; 1]%float
     = Ok (PyFloat 1, PyFloat 0, PyFloat nan, PyFloat nan)
  /\ is_nan nan = true
  /\ ~ (exists l1 l2 t3 t4,
          calculate_lmoments [1; 1; 1; 1]%float
            = Ok (PyFloat l1, PyFloat l2, PyFloat t3, PyFloat t4)
          /\ is_zero l2 = true /\ is_zero t3 = true /\ is_zero t4 = true).
Proof.
  assert (E : calculate_lmoments [1; 1; 1; 1]%float
              = Ok (PyFloat 1, PyFloat 0, PyFloat nan, PyFloat nan))
    by (vm_compute; reflexivity).
  split; [vm_compute; lia|]. split; [exact E|]. split; [reflexivity|].
  intros (l1 & l2 & t3 & t4 & H & _ & H3 & _).
  rewrite E in H. injection H as _ _ <- _. vm_compute in H3. discriminate.
Qed.

(** C7, as the code has it. For [1, 2, 3, 4, 5] the estimator returns
    [L1 = 3.0], [L2 = 1.0], [t3 = 0.0] and [t4 = 0.0]; these are the values
    of the closed form over the probability-weighted moments, where
    [L2 = 2 * b1 - b0 = 1], and the two agree within [1e-12]. *)
Theorem calculate_lmoments_one_to_five :
  let sample := [1; 2; 3; 4; 5] in
  let x := map inject_Z sample in
  calculate_lmoments (map Z2F sample)
    = Ok (PyFloat 3, PyFloat 1, PyFloat 0, PyFloat 0)
  /\ (pwm.L1 x == 3 /\ pwm.L2 x == 1 /\ pwm.t3 x == 0 /\ pwm.t4 x == 0)%Q
  /\ within (1 # 1000000000000) 3 (pwm.L1 x) = true
  /\ within (1 # 1000000000000) 1 (pwm.L2 x) = true
  /\ within (1 # 1000000000000) 0 (pwm.t3 x) = true
  /\ within (1 # 1000000000000) 0 (pwm.t4 x) = true.
Proof.
  cbv zeta. repeat split; vm_compute; reflexivity.
Qed.

(** For [1, 2, 3, 4, 5] the second L-moment is [1]: it is not within
    [1e-4] of [4/3], in the code as in the closed form. *)
Lemma calculate_lmoments_one_to_five_scale :
  let sample := [1; 2; 3; 4; 5] in
  exists l1 l2 t3 t4,
    calculate_lmoments (map Z2F sample)
      = Ok (PyFloat l1, PyFloat l2, PyFloat t3, PyFloat t4)
    /\ within (1 # 10000) l2 (4 # 3) = false
    /\ ~ (pwm.L2 (map inject_Z sample) == 4 # 3)%Q.
Proof.
  exists 3%float, 1%float, 0%float, 0%float.
  split; [vm_compute; reflexivity|]. split; [vm_compute; reflexivity|].
  intros H. vm_compute in H. discriminate.
Qed.

(** ** The feature-row builder *)

Section Builder.

Variable lib : Library.

Lemma calculate_statistics_num_nodes G n m ad de di ac ap :
  calculate_statistics lib G = Some (n, m, ad, de, di, ac, ap) ->
  n = nx.number_of_nodes G /\ m = nx.number_of_edges G.
Proof.
  unfold calculate_statistics.
  destruct (nx.is_connected (nx.to_undirected G)) as [conn|]; cbn; [|discriminate].
  destruct (if conn then PyInt <$> nx.diameter G else Ok (PyFloat nan)); cbn; [|discriminate].
  destruct (average_clustering lib (nx.to_undirected G)); cbn; [|discriminate].
  destruct (if conn then nx.average_shortest_path_length G else Ok (PyFloat nan));
    cbn; [|discriminate].
  intros [= <- <- _ _ _ _ _]. split; reflexivity.
Qed.

(** What a returned row is made of. *)
Lemma process_file_row pf file_path is_malicious log row log' :
  process_file lib pf (file_path, is_malicious) log = (Some row, log') ->
  log' = log /\ (file_path ∉ pf) /\
  exists G n m ad de di ac ap d b c k dl bl cl kl,
    read_dot lib file_path = Ok G
    /\ calculate_statistics lib G = Some (n, m, ad, de, di, ac, ap)
    /\ calculate_centrality_measures lib G = (Some d, Some b, Some c, Some k)
    /\ calculate_lmoments d = Ok dl /\ calculate_lmoments b = Ok bl
    /\ calculate_lmoments c = Ok cl /\ calculate_lmoments k = Ok kl
    /\ row = [CStr file_path;
              CStr (if is_malicious then "Malicious" else "Nonmalicious");
              CNum (PyInt n); CNum (PyInt m); CNum ad; CNum de; CNum di;
              CNum ac; CNum ap]
             ++ cells_of dl ++ cells_of bl ++ cells_of cl ++ cells_of kl.
Proof.
  unfold process_file, parse_network_data.
  case_bool_decide as Hpf; [discriminate|].
  destruct (read_dot lib file_path) as [G|e] eqn:EG; [|discriminate].
  destruct ((nx.number_of_nodes G =? 0) || (nx.number_of_edges G =? 0)); [discriminate|].
  destruct (calculate_statistics lib G) as [[[[[[[n m] ad] de] di] ac] ap]|] eqn:ES;
    [|discriminate].
  destruct (n =? 0); [discriminate|].
  destruct (calculate_centrality_measures lib G) as [[[[d|] b] c] k] eqn:Ecm;
    [|discriminate].
  cbn. destruct (calculate_lmoments d) as [dl|] eqn:Ed; cbn; [|discriminate].
  destruct b as [b|]; cbn; [|discriminate].
  destruct (calculate_lmoments b) as [bl|] eqn:Eb; cbn; [|discriminate].
  destruct c as [c|]; cbn; [|discriminate].
  destruct (calculate_lmoments c) as [cl|] eqn:Ec; cbn; [|discriminate].
  destruct k as [k|]; cbn; [|discriminate].
  destruct (calculate_lmoments k) as [kl|] eqn:Ek; cbn; [|discriminate].
  intros [= <- <-]. split; [reflexivity|]. split; [exact Hpf|].
  exists G, n, m, ad, de, di, ac, ap, d, b, c, k, dl, bl, cl, kl.
  repeat split; first [assumption | reflexivity].
Qed.

(** The worker's copy of the global only decides whether the item is
    skipped. *)
Lemma process_file_not_in pf item log :
  item.1 ∉ pf -> process_file lib pf item log = process_file lib ∅ item log.
Proof.
  destruct item as [file_path is_malicious]. intros Hpf.
  unfold process_file.
  rewrite (bool_decide_eq_false_2 _ Hpf).
  rewrite (bool_decide_eq_false_2 (file_path ∈ (∅ : gset string))) by set_solver.
  reflexivity.
Qed.

Lemma process_file_skipped pf file_path is_malicious log :
  file_path ∈ pf -> process_file lib pf (file_path, is_malicious) log = (None, log).
Proof.
  intros Hpf. unfold process_file. rewrite (bool_decide_eq_true_2 _ Hpf). reflexivity.
Qed.

(** What the worker returns does not depend on the failure file, and all
    the worker does to the failure file is to append rows: none with a
    returned row, one or two, each with the identity of the item first,
    without. *)
Lemma process_file_effect pf item :
  exists r rows,
    (forall log, process_file lib pf item log = (r, append_rows rows log))
    /\ (is_Some r -> rows = [])
    /\ Forall (fun row => head row = Some item.1) rows.
Proof.
  destruct item as [file_path is_malicious].
  unfold process_file, parse_network_data, log_unprocessed_file.
  case_bool_decide as Hpf.
  { exists None, []. split; [reflexivity|]. split; [reflexivity|constructor]. }
  destruct (read_dot lib file_path) as [G|e].
  2: { exists None, [[file_path; "Error parsing: " +:+ e];
                     [file_path; message EmptyGraph]].
       split; [reflexivity|]. split; [intros [? [=]]|]. repeat constructor. }
  destruct ((nx.number_of_nodes G =? 0) || (nx.number_of_edges G =? 0)).
  { exists None, [[file_path; message EmptyGraph]].
    split; [reflexivity|]. split; [intros [? [=]]|]. repeat constructor. }
  destruct (calculate_statistics lib G) as [[[[[[[n m] ad] de] di] ac] ap]|].
  2: { exists None, [[file_path; message StatisticsError]].
       split; [reflexivity|]. split; [intros [? [=]]|]. repeat constructor. }
  destruct (n =? 0).
  { exists None, [[file_path; message ZeroNodes]].
    split; [reflexivity|]. split; [intros [? [=]]|]. repeat constructor. }
  destruct (calculate_centrality_measures lib G) as [[[[d|] b] c] k].
  2: { exists None, [[file_path; message CentralityError]].
       split; [reflexivity|]. split; [intros [? [=]]|]. repeat constructor. }
  match goal with
  | |- context [match ?body with Ok _ => _ | Raise _ => _ end] =>
      destruct body as [row|e]
  end.
  - exists (Some row), []. split; [reflexivity|]. split; [reflexivity|constructor].
  - exists None, [[file_path; "Error processing: " +:+ e]].
    split; [reflexivity|]. split; [intros [? [=]]|]. repeat constructor.
Qed.

Lemma cells_of_length t : length (cells_of t) = 4%nat.
Proof. destruct t as [[[a b] c] d]. reflexivity. Qed.

(** One round of the orchestrator's loop counts the item, whatever became
    of it. *)
Lemma collect_count ws st item :
  processed_files_count (collect lib ws st item) = S (processed_files_count st).
Proof.
  unfold collect.
  destruct (process_file lib ws item None).1 as [[|c row]|]; reflexivity.
Qed.

Lemma loop_count ws items st :
  processed_files_count (fold_left (collect lib ws) items st)
  = (processed_files_count st + length items)%nat.
Proof.
  revert st. induction items as [|item items IH]; intros st; cbn; [lia|].
  rewrite IH, collect_count. lia.
Qed.

(** The three rejections of a parsed graph, each under the conditions that
    lead to it. *)
Lemma process_file_empty_graph pf file_path is_malicious log G :
  file_path ∉ pf -> read_dot lib file_path = Ok G ->
  (nx.number_of_nodes G =? 0) || (nx.number_of_edges G =? 0) = true ->
  process_file lib pf (file_path, is_malicious) log
  = (None, log_unprocessed_file file_path (message EmptyGraph) log).
Proof.
  intros Hpf HG He. unfold process_file, parse_network_data.
  rewrite (bool_decide_eq_false_2 _ Hpf), HG, He. reflexivity.
Qed.

Lemma process_file_statistics_error pf file_path is_malicious log G :
  file_path ∉ pf -> read_dot lib file_path = Ok G ->
  (nx.number_of_nodes G =? 0) || (nx.number_of_edges G =? 0) = false ->
  calculate_statistics lib G = None ->
  process_file lib pf (file_path, is_malicious) log
  = (None, log_unprocessed_file file_path (message StatisticsError) log).
Proof.
  intros Hpf HG He Hs. unfold process_file, parse_network_data.
  rewrite (bool_decide_eq_false_2 _ Hpf), HG, He, Hs. reflexivity.
Qed.

Lemma process_file_centrality_error pf file_path is_malicious log G :
  file_path ∉ pf -> read_dot lib file_path = Ok G ->
  (nx.number_of_nodes G =? 0) || (nx.number_of_edges G =? 0) = false ->
  is_Some (calculate_statistics lib G) ->
  (calculate_centrality_measures lib G).1.1.1 = None ->
  process_file lib pf (file_path, is_malicious) log
  = (None, log_unprocessed_file file_path (message CentralityError) log).
Proof.
  intros Hpf HG He [stats Hs] Hc. unfold process_file, parse_network_data.
  rewrite (bool_decide_eq_false_2 _ Hpf), HG, He, Hs.
  destruct stats as [[[[[[n m] ad] de] di] ac] ap].
  apply calculate_statistics_num_nodes in Hs as [-> _].
  apply orb_false_elim in He as [-> _].
  destruct (calculate_centrality_measures lib G) as [[[d b] c] k].
  cbn in Hc. subst d. reflexivity.
Qed.

Lemma mapM_raise {A B} (f : A -> result B) (l : list A) (x : A) (e : string) :
  x ∈ l -> f x = Raise e -> exists e', mapM f l = Raise e'.
Proof.
  intros Hx Hf. induction l as [|a l IH]; [by apply not_elem_of_nil in Hx|].
  cbn. destruct (f a) as [b|e0] eqn:Ea; cbn; [|eauto].
  apply elem_of_cons in Hx as [->|Hx]; [congruence|].
  destruct (IH Hx) as [e' ->]. cbn. eauto.
Qed.

(** [nx.diameter] raises on a digraph one of whose nodes does not reach
    every node. *)
Lemma diameter_raises G u :
  u ∈ nodes G ->
  length (nx.shortest_path_length (nx.successors G) (length (nodes G)) u)
    <> length (nodes G) ->
  exists e, nx.diameter G = Raise e.
Proof.
  intros Hu Hlen. unfold nx.diameter, nx.eccentricity.
  apply Nat.eqb_neq in Hlen.
  match goal with
  | |- context [mapM ?f (nodes G)] =>
      destruct (mapM_raise f (nodes G) u
        "Found infinite path length because the digraph is not strongly connected")
        as [e' He']; [exact Hu | cbv beta zeta; rewrite Hlen; reflexivity |]
  end.
  rewrite He'. cbn. eauto.
Qed.

(** The half of the sentinel that holds: with a disconnected undirected
    projection both values are NaN and the statistics are returned. *)
Lemma calculate_statistics_disconnected G ac :
  nx.is_connected (nx.to_undirected G) = Ok false ->
  average_clustering lib (nx.to_undirected G) = Ok ac ->
  exists n m ad de,
    calculate_statistics lib G
    = Some (n, m, ad, de, PyFloat nan, PyFloat ac, PyFloat nan).
Proof.
  intros Hc Ha. unfold calculate_statistics. rewrite Hc. cbn. rewrite Ha. cbn.
  eauto.
Qed.

End Builder.

(** ** Breadth-first search *)

Section Search.

Variable adj : string -> list string.

Lemma visited_spec (seen : list (string * Z)) (v : string) :
  nx.visited seen v = true <-> v ∈ seen.*1.
Proof.
  unfold nx.visited. rewrite existsb_exists, list_elem_of_fmap. split.
  - intros (p & Hin & Heq%String.eqb_eq). exists p. split; [by rewrite Heq|].
    by apply list_elem_of_In.
  - intros (p & -> & Hin). exists p. split; [by apply list_elem_of_In|].
    apply String.eqb_refl.
Qed.

Lemma existsb_eqb_spec (v : string) (l : list string) :
  existsb (String.eqb v) l = true <-> v ∈ l.
Proof.
  rewrite existsb_exists. split.
  - intros (x & Hin & Heq%String.eqb_eq). subst x. by apply list_elem_of_In.
  - intros Hin. exists v. split; [by apply list_elem_of_In|apply String.eqb_refl].
Qed.

Lemma elem_of_concat_map (x : string) (l : list string) :
  x ∈ concat (map adj l) -> exists v, v ∈ l /\ x ∈ adj v.
Proof.
  induction l as [|y l IH]; cbn [map concat]; [by intros ?%not_elem_of_nil|].
  intros [Hx|Hx]%elem_of_app.
  - exists y. split; [by left|exact Hx].
  - destruct (IH Hx) as (v & Hv & Hadj). exists v. split; [by right|exact Hadj].
Qed.

(** The nodes a level adds are new, distinct and adjacent to the frontier. *)
Lemma next_level_spec (seen : list (string * Z)) (frontier : list string) :
  NoDup (nx.next_level adj seen frontier)
  /\ forall x, x ∈ nx.next_level adj seen frontier ->
       (x ∉ seen.*1) /\ exists v, v ∈ frontier /\ x ∈ adj v.
Proof.
  unfold nx.next_level.
  assert (H : forall l acc,
    NoDup acc ->
    (forall x, x ∈ acc -> (x ∉ seen.*1) /\ exists v, v ∈ frontier /\ x ∈ adj v) ->
    (forall x, x ∈ l -> exists v, v ∈ frontier /\ x ∈ adj v) ->
    NoDup (fold_left (fun acc v =>
             if nx.visited seen v || existsb (String.eqb v) acc
             then acc else acc ++ [v]) l acc)
    /\ forall x, x ∈ fold_left (fun acc v =>
             if nx.visited seen v || existsb (String.eqb v) acc
             then acc else acc ++ [v]) l acc ->
         (x ∉ seen.*1) /\ exists v, v ∈ frontier /\ x ∈ adj v).
  { induction l as [|y l IH]; intros acc Hnd Hacc Hl; cbn [fold_left]; [by split|].
    apply IH.
    - destruct (nx.visited seen y || existsb (String.eqb y) acc) eqn:E; [exact Hnd|].
      apply orb_false_elim in E as [_ E].
      apply NoDup_app. split; [exact Hnd|]. split; [|apply NoDup_singleton].
      intros x Hx ->%list_elem_of_singleton.
      apply existsb_eqb_spec in Hx. congruence.
    - destruct (nx.visited seen y || existsb (String.eqb y) acc) eqn:E; [exact Hacc|].
      apply orb_false_elim in E as [E _].
      intros x [Hx | ->%list_elem_of_singleton]%elem_of_app; [by apply Hacc|].
      split; [|apply Hl; by left].
      intros Hin%visited_spec. congruence.
    - intros x Hx. apply Hl. by right. }
  apply H; [constructor | by intros x ?%not_elem_of_nil |].
  intros x Hx. by apply elem_of_concat_map.
Qed.

Lemma fmap_fst_level (d : Z) (l : list string) :
  (map (fun v => (v, d)) l).*1 = l.
Proof. induction l as [|x l IH]; [reflexivity|]. cbn. by rewrite IH. Qed.

(** The search keeps the reached nodes distinct, and inside any set of nodes
    that holds the start and is closed under adjacency. *)
Lemma bfs_invariant (P : string -> Prop) (fuel : nat) :
  (forall v w, P v -> w ∈ adj v -> P w) ->
  forall (seen : list (string * Z)) (frontier : list string) (d : Z),
    NoDup seen.*1 ->
    (forall x, x ∈ seen.*1 -> P x) ->
    (forall x, x ∈ frontier -> P x) ->
    NoDup (nx.bfs adj fuel seen frontier d).*1
    /\ forall x, x ∈ (nx.bfs adj fuel seen frontier d).*1 -> P x.
Proof.
  intros Hclosed. induction fuel as [|fuel IH]; intros seen frontier d Hnd Hseen Hfr.
  - by destruct frontier.
  - destruct frontier as [|f frontier]; [by split|].
    cbn [nx.bfs]. cbv zeta.
    destruct (next_level_spec seen (f :: frontier)) as [Hn Hnext].
    apply IH.
    + rewrite fmap_app, fmap_fst_level.
      apply NoDup_app. split; [exact Hnd|]. split; [|exact Hn].
      intros x Hx Hx'. by apply Hnext in Hx' as [? _].
    + rewrite fmap_app, fmap_fst_level.
      intros x [Hx|Hx]%elem_of_app; [by apply Hseen|].
      apply Hnext in Hx as (_ & v & Hv & Hadj). eauto.
    + intros x Hx. apply Hnext in Hx as (_ & v & Hv & Hadj). eauto.
Qed.

End Search.

(** On a well-formed graph the directed search from [u] lists fewer nodes
    than the graph has as soon as some node is not reached from [u]. *)
Lemma shortest_path_length_unreached (G : DiGraph) (u w : string) :
  well_formed G -> u ∈ nodes G -> w ∈ nodes G -> ~ reachable G u w ->
  length (nx.shortest_path_length (nx.successors G) (length (nodes G)) u)
    <> length (nodes G).
Proof.
  intros [Hnd Hedges] Hu Hw Hnot.
  destruct (bfs_invariant (nx.successors G)
              (fun x => reachable G u x /\ x ∈ nodes G) (length (nodes G)))
    with (seen := [(u, 0)]) (frontier := [u]) (d := 0) as [Hnd' Hin].
  - intros v x [Hr _] Hx. split; [by eapply reachable_step|].
    unfold nx.successors in Hx.
    apply list_elem_of_omap in Hx as ([[a b] wt] & He & Hb).
    destruct (String.eqb a v); [|discriminate]. injection Hb as ->.
    rewrite Forall_forall in Hedges. by apply Hedges in He as [_ ?].
  - apply NoDup_singleton.
  - intros x ->%list_elem_of_singleton. split; [constructor|exact Hu].
  - intros x ->%list_elem_of_singleton. split; [constructor|exact Hu].
  - fold (nx.shortest_path_length (nx.successors G) (length (nodes G)) u) in Hnd', Hin.
    set (sp := nx.shortest_path_length (nx.successors G) (length (nodes G)) u) in *.
    assert (Hsub : w :: sp.*1 ⊆+ nodes G).
    { apply NoDup_submseteq.
      - apply NoDup_cons. split; [|exact Hnd'].
        intros Hx. apply Hin in Hx as [? _]. contradiction.
      - intros x [->|Hx]%elem_of_cons; [exact Hw|]. by apply Hin in Hx as [_ ?]. }
    apply submseteq_length in Hsub. cbn in Hsub. rewrite length_fmap in Hsub. lia.
Qed.

(** C8. A row returned by [process_file] has 25 fields, one under every
    column of the header and in its order: the identity, the label as
    ['Malicious'] or ['Nonmalicious'], the seven statistics, then [L1],
    [L2], [T3], [T4] of the degree, betweenness, closeness and clustering
    series in this order, whatever the estimator returned for each (the
    integers [0, 0, 0, 0] of a degenerate series as well as floats).  The
    orchestrator writes the text of these 25 fields: the identity and the
    label as they are, an integer as [str] gives it, a float as its
    [repr]. *)
Theorem process_file_row_schema (lib : Library) (pf : gset string)
    (file_path : string) (is_malicious : bool) (log log' : csv_file)
    (row : list cell) :
  process_file lib pf (file_path, is_malicious) log = (Some row, log') ->
  let label : string := if is_malicious then "Malicious" else "Nonmalicious" in
  let text (x : pynum) : string :=
    match x with
    | PyInt z => py.str_int z
    | PyFloat f => repr_float lib f
    end in
  exists G n m ad de di ac ap d b c k
         d1 d2 d3 d4 b1 b2 b3 b4 c1 c2 c3 c4 k1 k2 k3 k4,
    read_dot lib file_path = Ok G
    /\ calculate_statistics lib G = Some (n, m, ad, de, di, ac, ap)
    /\ calculate_centrality_measures lib G = (Some d, Some b, Some c, Some k)
    /\ calculate_lmoments d = Ok (d1, d2, d3, d4)
    /\ calculate_lmoments b = Ok (b1, b2, b3, b4)
    /\ calculate_lmoments c = Ok (c1, c2, c3, c4)
    /\ calculate_lmoments k = Ok (k1, k2, k3, k4)
    /\ length row = 25%nat
    /\ length columns = 25%nat
    /\ zip columns row
       = [("Filename", CStr file_path);
          ("Malicious/Nonmalicious", CStr label);
          ("Number of Nodes", CNum (PyInt n));
          ("Number of Edges", CNum (PyInt m));
          ("Average Degree", CNum ad);
          ("Density", CNum de);
          ("Diameter", CNum di);
          ("Average Clustering", CNum ac);
          ("Average Path Length", CNum ap);
          ("Degree L1", CNum d1); ("Degree L2", CNum d2);
          ("Degree T3", CNum d3); ("Degree T4", CNum d4);
          ("Betweenness L1", CNum b1); ("Betweenness L2", CNum b2);
          ("Betweenness T3", CNum b3); ("Betweenness T4", CNum b4);
          ("Closeness L1", CNum c1); ("Closeness L2", CNum c2);
          ("Closeness T3", CNum c3); ("Closeness T4", CNum c4);
          ("Clustering L1", CNum k1); ("Clustering L2", CNum k2);
          ("Clustering T3", CNum k3); ("Clustering T4", CNum k4)]
    /\ (forall st,
          lmoments_csv (fs (collect lib pf st (file_path, is_malicious)))
          = append_row
              [file_path; label; py.str_int n; py.str_int m;
               text ad; text de; text di; text ac; text ap;
               text d1; text d2; text d3; text d4;
               text b1; text b2; text b3; text b4;
               text c1; text c2; text c3; text c4;
               text k1; text k2; text k3; text k4]
              (lmoments_csv (fs st))).
Proof.
  intros H label text.
  pose proof (process_file_row lib _ _ _ _ _ _ H) as (_ & _ & Hrow).
  destruct Hrow as (G & n & m & ad & de & di & ac & ap & d & b & c & k
                    & [[[d1 d2] d3] d4] & [[[b1 b2] b3] b4]
                    & [[[c1 c2] c3] c4] & [[[k1 k2] k3] k4]
                    & HG & Hs & Hc & Hd & Hb & Hcl & Hk & ->).
  exists G, n, m, ad, de, di, ac, ap, d, b, c, k,
         d1, d2, d3, d4, b1, b2, b3, b4, c1, c2, c3, c4, k1, k2, k3, k4.
  do 7 (split; [assumption|]).
  split; [reflexivity|]. split; [reflexivity|]. split; [reflexivity|].
  intros st. unfold collect.
  destruct (process_file_effect lib pf (file_path, is_malicious))
    as (r & rows & Hr & _ & _).
  rewrite Hr in H. injection H as -> _. rewrite Hr.
  cbn [fst]. unfold write_result_to_csv. cbn [cells_of app map fs lmoments_csv].
  reflexivity.
Qed.

Lemma process_file_row_schema_witness :
  exists row,
    process_file sample.lib ∅ ("Nonmalicious/pair.dot", false) None
    = (Some row, None)
    /\ row !! 1%nat = Some (CStr "Nonmalicious")
    /\ take 4 (drop 9 row)
       = [CNum (PyInt 0); CNum (PyInt 0); CNum (PyInt 0); CNum (PyInt 0)]
    /\ length row = 25%nat
    /\ (forall st,
          lmoments_csv
            (fs (collect sample.lib ∅ st ("Nonmalicious/pair.dot", false)))
          = append_row
              ["Nonmalicious/pair.dot"; "Nonmalicious"; "2"; "2";
               "2.0"; "1.0"; "1"; "0.0"; "1.0";
               "0"; "0"; "0"; "0"; "0"; "0"; "0"; "0";
               "0"; "0"; "0"; "0"; "0"; "0"; "0"; "0"]
              (lmoments_csv (fs st))).
Proof.
  eexists. split; [vm_compute; reflexivity|].
  split; [reflexivity|]. split; [reflexivity|].
  match goal with
  | |- length ?row = _ /\ _ =>
      assert (Hrow : process_file sample.lib ∅ ("Nonmalicious/pair.dot", false)
                       None = (Some row, None)) by (vm_compute; reflexivity);
      destruct (process_file_row_schema sample.lib ∅ "Nonmalicious/pair.dot"
                  false None None row Hrow)
        as (G & n & m & ad & de & di & ac & ap & d & b & c & k
            & d1 & d2 & d3 & d4 & b1 & b2 & b3 & b4 & c1 & c2 & c3 & c4
            & k1 & k2 & k3 & k4 & HG & Hs & Hc & Hd & Hb & Hcl & Hk
            & Hlen & _ & _ & Hwritten)
  end.
  split; [exact Hlen|].
  intros st. rewrite Hwritten.
  injection HG as <-.
  vm_compute in Hs. injection Hs as <- <- <- <- <- <- <-.
  vm_compute in Hc. injection Hc as <- <- <- <-.
  vm_compute in Hd. injection Hd as <- <- <- <-.
  vm_compute in Hb. injection Hb as <- <- <- <-.
  vm_compute in Hcl. injection Hcl as <- <- <- <-.
  vm_compute in Hk. injection Hk as <- <- <- <-.
  reflexivity.
Defined.

(** C5, at a file that cannot be parsed: the identity is recorded twice in
    the failure file, once by [parse_network_data] and once more by
    [process_file], where one record per rejected item was promised. *)
Theorem process_file_parse_failure (lib : Library) (pf : gset string)
    (file_path : string) (is_malicious : bool) (log : csv_file) (e : string) :
  file_path ∉ pf ->
  read_dot lib file_path = Raise e ->
  process_file lib pf (file_path, is_malicious) log
  = (None, Some (default [] log
                 ++ [[file_path; "Error parsing: " +:+ e];
                     [file_path; "Graph is empty or couldn't be parsed."]])).
Proof.
  intros Hpf He. unfold process_file, parse_network_data.
  rewrite (bool_decide_eq_false_2 _ Hpf), He.
  unfold log_unprocessed_file, append_row. cbn.
  rewrite <- app_assoc. reflexivity.
Qed.

Lemma process_file_parse_failure_witness :
  process_file sample.lib ∅ ("Malicious/bad.dot", true) None
  = (None, Some [["Malicious/bad.dot"; "Error parsing: syntax error"];
                 ["Malicious/bad.dot"; "Graph is empty or couldn't be parsed."]]).
Proof.
  apply (process_file_parse_failure sample.lib ∅ "Malicious/bad.dot" true None
           "syntax error"); [set_solver | reflexivity].
Defined.

(** C6. On a parsed graph [process_file] rejects in this order, each
    rejection ending the item with one record of its kind and no row: zero
    nodes or zero edges, then the statistics failing, then the degree series
    missing; and the orchestrator's loop goes through every item whatever
    became of the others. *)
Theorem process_file_rejection_order (lib : Library) (pf : gset string)
    (file_path : string) (is_malicious : bool) (log : csv_file) (G : DiGraph) :
  file_path ∉ pf ->
  read_dot lib file_path = Ok G ->
  let empty := (nx.number_of_nodes G =? 0) || (nx.number_of_edges G =? 0) in
  let reject r := (@None (list cell),
                   append_row [file_path; message r] log) in
  (empty = true ->
     process_file lib pf (file_path, is_malicious) log = reject EmptyGraph)
  /\ (empty = false -> calculate_statistics lib G = None ->
     process_file lib pf (file_path, is_malicious) log = reject StatisticsError)
  /\ (empty = false -> is_Some (calculate_statistics lib G) ->
     (calculate_centrality_measures lib G).1.1.1 = None ->
     process_file lib pf (file_path, is_malicious) log = reject CentralityError)
  /\ (forall ws items st,
        processed_files_count (fold_left (collect lib ws) items st)
        = (processed_files_count st + length items)%nat).
Proof.
  intros Hpf HG empty reject. subst empty reject. cbv beta.
  split; [|split; [|split]].
  - intros He. by apply process_file_empty_graph with G.
  - intros He Hs. by apply process_file_statistics_error with G.
  - intros He Hs Hc. by apply process_file_centrality_error with G.
  - intros ws items st. apply loop_count.
Qed.

Lemma process_file_rejection_order_witness :
  process_file sample.lib ∅ ("Malicious/ab.dot", true) None
  = (None, Some [["Malicious/ab.dot"; "Error calculating statistics"]]).
Proof.
  destruct (process_file_rejection_order sample.lib ∅ "Malicious/ab.dot" true None
              sample.G_ab) as (_ & H & _); [set_solver | reflexivity |].
  apply H; reflexivity.
Defined.

(** C2, where the code departs from it. When the undirected projection is
    connected but some node is not reached from some other node along the
    directed edges, [nx.diameter] raises on the directed graph: the
    statistics are lost and the item is rejected, where a diameter and an
    average path length were promised. *)
Theorem calculate_statistics_not_strongly_connected (lib : Library)
    (pf : gset string) (file_path : string) (is_malicious : bool)
    (log : csv_file) (G : DiGraph) (u w : string) :
  well_formed G ->
  nx.is_connected (nx.to_undirected G) = Ok true ->
  u ∈ nodes G -> w ∈ nodes G -> ~ reachable G u w ->
  edges G <> [] ->
  file_path ∉ pf ->
  read_dot lib file_path = Ok G ->
  calculate_statistics lib G = None
  /\ process_file lib pf (file_path, is_malicious) log
     = (None, append_row [file_path; "Error calculating statistics"] log).
Proof.
  intros Hwf Hconn Hu Hw Hnot Hedges Hpf HG.
  pose proof (shortest_path_length_unreached G u w Hwf Hu Hw Hnot) as Hlen.
  assert (Hs : calculate_statistics lib G = None).
  { unfold calculate_statistics. rewrite Hconn. cbn.
    destruct (diameter_raises G u Hu Hlen) as [e ->]. reflexivity. }
  split; [exact Hs|].
  apply process_file_statistics_error with G; try assumption.
  apply orb_false_intro; apply Z.eqb_neq; unfold nx.number_of_nodes, nx.number_of_edges.
  - destruct (nodes G); [by apply not_elem_of_nil in Hu | cbn; lia].
  - destruct (edges G); [congruence | cbn; lia].
Qed.

Lemma calculate_statistics_not_strongly_connected_witness :
  calculate_statistics sample.lib sample.G_ab = None
  /\ process_file sample.lib ∅ ("Malicious/ab.dot", true) None
     = (None, Some [["Malicious/ab.dot"; "Error calculating statistics"]]).
Proof.
  apply (calculate_statistics_not_strongly_connected sample.lib ∅
           "Malicious/ab.dot" true None sample.G_ab "b" "a").
  - split; [apply (bool_decide_unpack _); vm_compute; exact I|].
    repeat constructor.
  - vm_compute. reflexivity.
  - by right; left.
  - by left.
  - assert (H : forall x, reachable sample.G_ab "b" x -> x = "b").
    { induction 1 as [|v x _ -> Hx]; [reflexivity|].
      by apply not_elem_of_nil in Hx. }
    intros Hr%H. discriminate.
  - discriminate.
  - apply not_elem_of_empty.
  - reflexivity.
Defined.

(** ** Sums of small integers in [float32] *)

Section Exact.

Lemma small_sums_exact :
  forallb (fun a => forallb (exact_sum a) (seqZ 0 (129 - a))) (seqZ 0 129) = true.
Proof. vm_compute. reflexivity. Qed.

Lemma small_starts_exact : forallb exact_start (seqZ 0 129) = true.
Proof. vm_compute. reflexivity. Qed.

Lemma add_float32_small (a b : Z) :
  0 <= a -> 0 <= b -> a + b <= 128 ->
  np.add_float32 (Z2F a) (Z2F b) = Z2F (a + b).
Proof.
  intros Ha Hb Hab.
  assert (Ha' : In a (seqZ 0 129)) by (apply list_elem_of_In, elem_of_seqZ; lia).
  assert (Hb' : In b (seqZ 0 (129 - a))) by (apply list_elem_of_In, elem_of_seqZ; lia).
  pose proof (proj1 (forallb_forall _ _) small_sums_exact a Ha') as H.
  pose proof (proj1 (forallb_forall _ _) H b Hb') as H'.
  by apply FloatAxioms.Leibniz.eqb_spec.
Qed.

Lemma add_float32_neg_zero (a : Z) :
  0 <= a <= 128 -> np.add_float32 neg_zero (Z2F a) = Z2F a.
Proof.
  intros Ha.
  assert (Ha' : In a (seqZ 0 129)) by (apply list_elem_of_In, elem_of_seqZ; lia).
  pose proof (proj1 (forallb_forall _ _) small_starts_exact a Ha') as H.
  by apply FloatAxioms.Leibniz.eqb_spec.
Qed.

Lemma total_nil : total [] = 0.
Proof. reflexivity. Qed.

Lemma total_cons (k : Z) (ks : list Z) : total (k :: ks) = k + total ks.
Proof. reflexivity. Qed.

Lemma total_app (ks ks' : list Z) : total (ks ++ ks') = total ks + total ks'.
Proof.
  induction ks as [|k ks IH]; [reflexivity|].
  cbn [app]. rewrite !total_cons, IH. lia.
Qed.

Lemma total_nonneg (ks : list Z) : Forall (fun k => 0 <= k) ks -> 0 <= total ks.
Proof.
  induction 1 as [|k ks Hk _ IH]; [reflexivity|]. rewrite total_cons. lia.
Qed.

Ltac exact_adds :=
  repeat match goal with
         | |- context [np.add_float32 neg_zero (Z2F ?a)] =>
             rewrite (add_float32_neg_zero a) by lia
         | |- context [np.add_float32 (Z2F ?a) (Z2F ?b)] =>
             rewrite (add_float32_small a b) by lia
         end.

Ltac nonneg :=
  repeat match goal with
         | H : Forall _ (_ :: _) |- _ => apply Forall_cons in H as [? H]
         end;
  cbv beta in *.

Lemma fold_left_exact (ks : list Z) (acc : Z) :
  0 <= acc -> Forall (fun k => 0 <= k) ks -> acc + total ks <= 128 ->
  fold_left np.add_float32 (map Z2F ks) (Z2F acc) = Z2F (acc + total ks).
Proof.
  intros Hacc Hks. revert acc Hacc.
  induction ks as [|k ks IH]; intros acc Hacc Hsum.
  - rewrite total_nil. cbn. f_equal. lia.
  - nonneg. rewrite total_cons in *. pose proof (total_nonneg ks Hks).
    cbn [map fold_left].
    exact_adds. rewrite IH by (assumption || lia).
    f_equal. lia.
Qed.

Lemma unrolled_exact (n : nat) :
  forall (ks : list Z) (k0 k1 k2 k3 k4 k5 k6 k7 : Z),
    (length ks <= n)%nat ->
    Forall (fun k => 0 <= k) (k0 :: k1 :: k2 :: k3 :: k4 :: k5 :: k6 :: k7 :: ks) ->
    total (k0 :: k1 :: k2 :: k3 :: k4 :: k5 :: k6 :: k7 :: ks) <= 128 ->
    np.unrolled np.add_float32 (Z2F k0) (Z2F k1) (Z2F k2) (Z2F k3)
      (Z2F k4) (Z2F k5) (Z2F k6) (Z2F k7) (map Z2F ks)
    = Z2F (total (k0 :: k1 :: k2 :: k3 :: k4 :: k5 :: k6 :: k7 :: ks)).
Proof.
  induction n as [|n IH]; intros ks k0 k1 k2 k3 k4 k5 k6 k7 Hlen Hks Hsum.
  { destruct ks; [|cbn in Hlen; lia]. nonneg.
    rewrite ?total_cons, ?total_nil in *.
    cbn [map np.unrolled fold_left]. exact_adds. f_equal. lia. }
  nonneg.
  destruct ks as [|a0 [|a1 [|a2 [|a3 [|a4 [|a5 [|a6 [|a7 ks]]]]]]]];
    nonneg; rewrite ?total_cons, ?total_nil in *.
  1-8: cbn [map np.unrolled fold_left]; exact_adds; f_equal; lia.
  pose proof (total_nonneg ks Hks) as Hpos.
  cbn [map np.unrolled].
  exact_adds.
  rewrite IH.
  - f_equal. rewrite !total_cons. lia.
  - cbn [length] in Hlen. lia.
  - repeat (apply Forall_cons; split; [lia|]). exact Hks.
  - rewrite !total_cons. lia.
Qed.

Lemma block_exact (ks : list Z) :
  ks <> [] -> Forall (fun k => 0 <= k) ks -> total ks <= 128 ->
  np.block np.add_float32 (map Z2F ks) = Z2F (total ks).
Proof.
  intros Hne Hks Hsum.
  destruct ks as [|a0 [|a1 [|a2 [|a3 [|a4 [|a5 [|a6 [|a7 ks]]]]]]]];
    [done|..]; nonneg; rewrite ?total_cons, ?total_nil in *.
  1-7: cbn [map np.block fold_left]; exact_adds; f_equal; lia.
  cbn [map np.block].
  rewrite (unrolled_exact (length ks)); [reflexivity|lia| |].
  - pose proof (total_nonneg ks Hks).
    repeat (apply Forall_cons; split; [lia|]). exact Hks.
  - rewrite !total_cons. lia.
Qed.

Lemma pairwise_sum_rec_exact (depth : nat) :
  forall ks : list Z,
    ks <> [] -> Forall (fun k => 0 <= k) ks -> total ks <= 128 ->
    np.pairwise_sum_rec np.add_float32 depth (map Z2F ks) = Z2F (total ks).
Proof.
  induction depth as [|depth IH]; intros ks Hne Hks Hsum; cbn [np.pairwise_sum_rec].
  { by apply block_exact. }
  rewrite length_map.
  destruct (Nat.ltb_spec 128 (length ks)) as [Hlong|_]; [|by apply block_exact].
  cbv zeta. set (n2 := (length ks / 2 - (length ks / 2) mod 8)%nat).
  assert (Hn2 : (0 < n2 < length ks)%nat).
  { subst n2. pose proof (Nat.div_mod_eq (length ks) 2).
    pose proof (Nat.mod_upper_bound (length ks) 2).
    pose proof (Nat.mod_upper_bound (length ks / 2) 8). lia. }
  rewrite firstn_map, skipn_map.
  rewrite <- (firstn_skipn n2 ks) in Hsum. rewrite total_app in Hsum.
  assert (0 <= total (take n2 ks)) by (by apply total_nonneg, Forall_take).
  assert (0 <= total (drop n2 ks)) by (by apply total_nonneg, Forall_drop).
  rewrite !IH.
  - exact_adds. rewrite <- total_app.
    by rewrite firstn_skipn.
  - intros E. assert (El : length (drop n2 ks) = 0%nat) by (by rewrite E).
    rewrite length_skipn in El. lia.
  - by apply Forall_drop.
  - lia.
  - intros E. assert (El : length (take n2 ks) = 0%nat) by (by rewrite E).
    rewrite length_firstn in El. lia.
  - by apply Forall_take.
  - lia.
Qed.

(** A run of small counts is added up without rounding: the sum in
    [float32] is the float of the integer sum. *)
Lemma add_reduce_exact (ks : list Z) :
  ks <> [] -> Forall (fun k => 0 <= k) ks -> total ks <= 128 ->
  np.add_reduce np.add_float32 (map Z2F ks) = Z2F (total ks).
Proof.
  intros Hne Hks Hsum. unfold np.add_reduce, np.pairwise_sum.
  destruct ks as [|k ks]; [done|]. cbn [map].
  change (Z2F k :: map Z2F ks) with (map Z2F (k :: ks)).
  rewrite pairwise_sum_rec_exact by assumption.
  apply add_float32_neg_zero. pose proof (total_nonneg _ Hks). lia.
Qed.

(** The bound on the number of splits is never reached: any bound from the
    length of the run on gives the same sum. *)
Lemma pairwise_sum_rec_depth (add : float -> float -> float) (d1 : nat) :
  forall (d2 : nat) (a : list float),
    (length a <= d1)%nat -> (length a <= d2)%nat ->
    np.pairwise_sum_rec add d1 a = np.pairwise_sum_rec add d2 a.
Proof.
  induction d1 as [|d1 IH]; intros d2 a H1 H2.
  - destruct a; [|cbn in H1; lia]. by destruct d2.
  - cbn [np.pairwise_sum_rec].
    destruct (Nat.ltb_spec 128 (length a)) as [Hlong|Hshort].
    + destruct d2 as [|d2]; [lia|]. cbn [np.pairwise_sum_rec].
      destruct (Nat.ltb_spec 128 (length a)) as [_|?]; [|lia].
      cbv zeta. set (n2 := (length a / 2 - (length a / 2) mod 8)%nat).
      assert (Hn2 : (0 < n2 < length a)%nat).
      { subst n2. pose proof (Nat.div_mod_eq (length a) 2).
        pose proof (Nat.mod_upper_bound (length a) 2).
        pose proof (Nat.mod_upper_bound (length a / 2) 8). lia. }
      f_equal; apply IH; rewrite ?length_firstn, ?length_skipn; lia.
    + destruct d2 as [|d2]; [reflexivity|]. cbn [np.pairwise_sum_rec].
      by destruct (Nat.ltb_spec 128 (length a)) as [?|_]; [lia|].
Qed.

End Exact.

(** ** The adjacency matrix of a graph without weights *)

Section Adjacency.

Lemma mapM_weights_unweighted (es : list (string * string * weight_attr)) :
  Forall (fun e : string * string * weight_attr => e.2 = NoWeight) es ->
  mapM (fun e : string * string * weight_attr =>
          let '(a, b, w) := e in x ← nx.weight_value w; Ok (a, b, x)) es
  = Ok (map (fun e : string * string * weight_attr => (e.1.1, e.1.2, 1%float)) es).
Proof.
  induction 1 as [|[[a b] w] es Hw _ IH]; [reflexivity|].
  cbn in Hw. subst w. cbn. rewrite IH. reflexivity.
Qed.

Lemma entry_unit (es : list (string * string * weight_attr)) (u v : string) :
  nx.entry (map (fun e : string * string * weight_attr => (e.1.1, e.1.2, 1%float)) es) u v
  = if bool_decide ((u, v) ∈ es.*1) then 1%float else 0%float.
Proof.
  unfold nx.entry. induction es as [|[[a b] w] es IH]; [reflexivity|].
  cbn [map find fst snd fmap list_fmap].
  destruct (String.eqb a u && String.eqb b v) eqn:E.
  - apply andb_prop in E as [->%String.eqb_eq ->%String.eqb_eq].
    rewrite bool_decide_eq_true_2; [reflexivity|by left].
  - rewrite IH. apply andb_false_iff in E.
    assert (Hne : (u, v) <> (a, b)).
    { intros [= -> ->]. rewrite !String.eqb_refl in E. by destruct E. }
    destruct (decide ((u, v) ∈ es.*1)) as [Hin|Hin].
    + rewrite !bool_decide_eq_true_2; [reflexivity|by right|exact Hin].
    + rewrite !bool_decide_eq_false_2; [reflexivity| |exact Hin].
      by intros [?|?]%elem_of_cons.
Qed.

Lemma to_numpy_array_unweighted (G : DiGraph) :
  unweighted G ->
  nx.to_numpy_array G
  = Ok (map (fun u => map (fun v => if bool_decide ((u, v) ∈ (edges G).*1)
                                    then 1%float else 0%float) (nodes G))
            (nodes G)).
Proof.
  intros Hw. unfold nx.to_numpy_array.
  rewrite (mapM_weights_unweighted _ Hw). cbn. f_equal.
  apply map_ext. intros u. apply map_ext. intros v. apply entry_unit.
Qed.

Lemma total_indicator {A} (P : A -> Prop) `{!forall x, Decision (P x)} (l : list A) :
  total (map (fun x => if bool_decide (P x) then 1 else 0) l)
  = Z.of_nat (length (filter P l)).
Proof.
  induction l as [|x l IH]; [reflexivity|].
  cbn [map]. rewrite total_cons, IH, filter_cons.
  destruct (decide (P x)) as [Hx|Hx].
  - rewrite bool_decide_eq_true_2 by exact Hx. cbn [length]. lia.
  - rewrite bool_decide_eq_false_2 by exact Hx. lia.
Qed.

Lemma length_filter_source (es : list (string * string * weight_attr)) (u : string) :
  length (filter (fun e : string * string * weight_attr => e.1.1 = u) es)
  = length (filter (fun pr : string * string => pr.1 = u) es.*1).
Proof.
  induction es as [|[[a b] w] es IH]; [reflexivity|].
  cbn [fmap list_fmap fst]. rewrite !filter_cons. cbn [fst].
  destruct (decide (a = u)); cbn [length]; by rewrite IH.
Qed.

(** In a graph as networkx keeps it, the targets of the edges that leave a
    node are as many of its nodes as the node has edges leaving it. *)
Lemma out_degree_targets (G : DiGraph) (u : string) :
  well_formed G -> simple G ->
  Z.of_nat (length (filter (fun v => (u, v) ∈ (edges G).*1) (nodes G)))
  = out_degree G u.
Proof.
  intros [Hnodes Hends] Hsimple. unfold out_degree. f_equal.
  rewrite length_filter_source.
  rewrite <- (length_fmap snd (filter _ (edges G).*1)).
  apply Permutation_length, NoDup_Permutation.
  - by apply NoDup_filter.
  - apply NoDup_fmap_2_strong; [|by apply NoDup_filter].
    intros [a b] [a' b'] [Ha _]%list_elem_of_filter [Ha' _]%list_elem_of_filter.
    cbn in *. congruence.
  - intros v. split.
    + intros [Hin _]%list_elem_of_filter. apply list_elem_of_fmap.
      exists (u, v). split; [reflexivity|]. by apply list_elem_of_filter.
    + intros ([a b] & -> & [Ha Hin]%list_elem_of_filter)%list_elem_of_fmap.
      cbn in Ha. subst a. apply list_elem_of_filter.
      split; [exact Hin|]. cbn.
      apply list_elem_of_fmap in Hin as ([[a b'] w] & [= <- <-] & He).
      rewrite Forall_forall in Hends. by apply Hends in He as [_ ?].
Qed.

(** The degree series of a graph without weights: the out-degree of every
    node, as a float. *)
Lemma degree_series_unweighted (G : DiGraph) (A : list (list float)) :
  well_formed G -> simple G -> unweighted G ->
  (forall u, u ∈ nodes G -> out_degree G u <= 128) ->
  nx.to_numpy_array G = Ok A ->
  np.sum_axis1 (map (map np.astype_float32) A)
  = map (fun u => Z2F (out_degree G u)) (nodes G).
Proof.
  intros Hwf Hsimple Hw Hdeg HA.
  rewrite (to_numpy_array_unweighted G Hw) in HA. injection HA as <-.
  unfold np.sum_axis1. rewrite !map_map.
  apply map_ext_in. intros u Hu%list_elem_of_In.
  rewrite map_map.
  rewrite (map_ext _ (fun v => Z2F (if bool_decide ((u, v) ∈ (edges G).*1)
                                    then 1 else 0))).
  2: { intros v. by destruct (bool_decide _). }
  rewrite <- (map_map (fun v => if bool_decide ((u, v) ∈ (edges G).*1) then 1 else 0)
                Z2F).
  assert (Htotal : total (map (fun v => if bool_decide ((u, v) ∈ (edges G).*1)
                                        then 1 else 0) (nodes G))
                   = out_degree G u).
  { rewrite (total_indicator (fun v => (u, v) ∈ (edges G).*1)).
    by apply out_degree_targets. }
  rewrite add_reduce_exact.
  - by rewrite Htotal.
  - destruct (nodes G); [by apply not_elem_of_nil in Hu|discriminate].
  - apply Forall_forall. intros k (v & -> & _)%list_elem_of_fmap.
    by destruct (bool_decide _).
  - rewrite Htotal. by apply Hdeg.
Qed.

End Adjacency.

(** C10. The degree series given to the estimator is the vector of the row
    sums of the adjacency matrix in [float32], one entry per node.  On a
    graph without weights, as networkx keeps it, the entry of a node is the
    number of edges that leave it, as a float, not divided by anything
    (shown here for nodes with up to 128 edges leaving them, where no sum
    rounds).  The four degree fields of a row are the estimator's values on
    this series.  On the star [a -> b], [a -> c] the series is [2, 0, 0],
    where the normalized degree centrality is [1, 0.5, 0.5]; a weight of
    [0.1] enters as the [float32] nearest to it; and a row of a loop of
    weight [2^24] and seven edges sums to [16777222], as numpy adds a row
    of eight in [float32]. *)
Theorem degree_series_is_out_degree (lib : Library) (G : DiGraph)
    (d : list float) (b c k : option (list float)) :
  calculate_centrality_measures lib G = (Some d, b, c, k) ->
  (exists A, nx.to_numpy_array G = Ok A
             /\ d = np.sum_axis1 (map (map np.astype_float32) A))
  /\ length d = length (nodes G)
  /\ (well_formed G -> simple G -> unweighted G ->
      (forall u, u ∈ nodes G -> out_degree G u <= 128) ->
      d = map (fun u => Z2F (out_degree G u)) (nodes G))
  /\ (forall pf file_path is_malicious log log' row,
        read_dot lib file_path = Ok G ->
        process_file lib pf (file_path, is_malicious) log = (Some row, log') ->
        exists l1 l2 t3 t4,
          calculate_lmoments d = Ok (l1, l2, t3, t4)
          /\ take 4 (drop 9 row) = [CNum l1; CNum l2; CNum t3; CNum t4])
  /\ (calculate_centrality_measures sample.lib sample.G_star).1.1.1
     = Some [2; 0; 0]%float
  /\ nx.degree_centrality sample.G_star = [1; 0.5; 0.5]%float
  /\ (calculate_centrality_measures sample.lib sample.G_tenth).1.1.1
     = Some [0x1.99999ap-4; 1]%float
  /\ (calculate_centrality_measures sample.lib sample.G8).1.1.1
     = Some [16777222; 0; 0; 0; 0; 0; 0; 0]%float.
Proof.
  intros H.
  assert (HA : exists A, nx.to_numpy_array G = Ok A
                 /\ d = np.sum_axis1 (map (map np.astype_float32) A)).
  { unfold calculate_centrality_measures, calculate_degree_centrality in H.
    destruct (nx.to_numpy_array G) as [A|]; cbn in H; [|discriminate].
    destruct (betweenness_centrality lib G); cbn in H; [|discriminate].
    destruct (closeness_centrality lib G); cbn in H; [|discriminate].
    destruct (clustering lib (nx.to_undirected G)); cbn in H; [|discriminate].
    injection H as <- _ _ _. eauto. }
  destruct HA as (A & HA & Hd).
  split; [eauto|]. split.
  { rewrite Hd. unfold nx.to_numpy_array in HA.
    destruct (mapM _ (edges G)); cbn in HA; [|discriminate].
    injection HA as <-. unfold np.sum_axis1. by rewrite !length_map. }
  split.
  { intros Hwf Hsimple Hw Hdeg. rewrite Hd.
    by apply degree_series_unweighted. }
  split.
  { intros pf file_path is_malicious log log' row HG Hrow.
    apply process_file_row in Hrow as (_ & _ & Hrow).
    destruct Hrow as (G' & n & m & ad & de & di & ac & ap & d' & b' & c' & k'
                      & [[[l1 l2] t3] t4] & bl & cl & kl
                      & HG' & _ & Hc & Hl & _ & _ & _ & ->).
    rewrite HG in HG'. injection HG' as <-. rewrite H in Hc.
    injection Hc as <- _ _ _. exists l1, l2, t3, t4. split; [exact Hl|reflexivity]. }
  repeat split; vm_compute; reflexivity.
Qed.

Lemma degree_series_is_out_degree_witness :
  exists d,
    (calculate_centrality_measures sample.lib sample.G_star).1.1.1 = Some d
    /\ length d = 3%nat
    /\ d = map (fun u => Z2F (out_degree sample.G_star u)) ["a"; "b"; "c"]
    /\ d = [2; 0; 0]%float.
Proof.
  exists [2; 0; 0]%float. split; [vm_compute; reflexivity|].
  destruct (degree_series_is_out_degree sample.lib sample.G_star [2; 0; 0]%float
              (Some [0; 0; 0]%float) (Some [1; 1; 1]%float) (Some [0; 0; 0]%float))
    as (_ & Hlen & Hdeg & _); [vm_compute; reflexivity|].
  split; [exact Hlen|]. split; [|reflexivity].
  apply Hdeg.
  - split; [apply (bool_decide_unpack _); vm_compute; exact I|].
    repeat constructor; apply (bool_decide_unpack _); vm_compute; exact I.
  - apply (bool_decide_unpack _). vm_compute. exact I.
  - repeat constructor.
  - intros u _. unfold out_degree.
    pose proof (length_filter
                  (fun e : string * string * weight_attr => e.1.1 = u)
                  (edges sample.G_star)) as Hle.
    change (length (edges sample.G_star)) with 2%nat in Hle. lia.
Defined.

(** ** Strings and paths *)

Section Strings.

Lemma append_assoc (a b c : string) : (a +:+ b) +:+ c = a +:+ (b +:+ c).
Proof.
  induction a as [|x a IH]; [reflexivity|].
  change (String x ((a +:+ b) +:+ c) = String x (a +:+ (b +:+ c))).
  by rewrite IH.
Qed.

Lemma lstrip_fixed (c : ascii) (s : string) :
  py.isspace c = false -> py.lstrip (String c s) = String c s.
Proof. intros H. cbn. by rewrite H. Qed.

Lemma append_cons (a : ascii) (s t : string) :
  String a s +:+ t = String a (s +:+ t).
Proof. reflexivity. Qed.

Lemma append_empty (t : string) : "" +:+ t = t.
Proof. reflexivity. Qed.

Lemma rstrip_fixed (p : string) (c : ascii) :
  py.isspace c = false ->
  py.rstrip (p +:+ String c EmptyString) = p +:+ String c EmptyString.
Proof.
  intros H. induction p as [|a p IH].
  - rewrite append_empty. cbn. by rewrite H.
  - rewrite append_cons. cbn [py.rstrip]. rewrite IH.
    destruct p; reflexivity.
Qed.

Lemma endswith_suffix (s suffix : string) :
  py.endswith s suffix = true -> exists p, s = p +:+ suffix.
Proof.
  induction s as [|a s IH]; cbn [py.endswith].
  - destruct (String.eqb "" suffix) eqn:E; [|discriminate].
    apply String.eqb_eq in E as <-. by exists "".
  - destruct (String.eqb (String a s) suffix) eqn:E.
    + apply String.eqb_eq in E as <-. by exists "".
    + intros [p ->]%IH. by exists (String a p).
Qed.

Lemma rstrip_dot (q : string) : py.rstrip (q +:+ ".dot") = q +:+ ".dot".
Proof.
  change ".dot" with (".do" +:+ "t").
  rewrite <- append_assoc. by apply rstrip_fixed.
Qed.

(** A path made of a root that starts with a character that is not white
    space and of a file name in [.dot] is left as it is by [strip]. *)
Lemma strip_path_join (c : ascii) (root filename : string) :
  py.isspace c = false ->
  py.endswith filename ".dot" = true ->
  py.strip (py.path_join (String c root) filename)
  = py.path_join (String c root) filename.
Proof.
  intros Hc [p ->]%endswith_suffix.
  unfold py.strip, py.path_join, py.startswith.
  destruct (String.prefix "/" (p +:+ ".dot")) eqn:Hp.
  - destruct p as [|a p].
    + discriminate.
    + rewrite append_cons in Hp |- *. cbn [String.prefix] in Hp.
      destruct (Ascii.ascii_dec "/" a) as [<-|]; [|discriminate].
      cbn [py.lstrip py.isspace]. rewrite <- append_cons. apply rstrip_dot.
  - destruct (String.eqb (String c root) "" || py.endswith (String c root) "/").
    + rewrite append_cons. cbn [py.lstrip]. rewrite Hc.
      rewrite <- append_cons, <- append_assoc. apply rstrip_dot.
    + rewrite append_cons. cbn [py.lstrip]. rewrite Hc.
      rewrite <- append_cons, <- !append_assoc. apply rstrip_dot.
Qed.

Lemma rooted_root (top root : string) (c : ascii) (top' : string) :
  top = String c top' -> py.startswith root top = true ->
  exists root', root = String c root'.
Proof.
  intros -> H. unfold py.startswith in H.
  destruct root as [|a root]; cbn [String.prefix] in H.
  - discriminate.
  - destruct (Ascii.ascii_dec c a) as [<-|]; [eauto|discriminate].
Qed.

End Strings.

(** ** The orchestrator *)

Section Run.

Variable lib : Library.
Variable completion_order : list (string * bool) -> list (string * bool).
Variable append_order : list (list csv_row) -> list csv_row.

Lemma append_rows_Some (rows l : list csv_row) :
  append_rows rows (Some l) = Some (l ++ rows).
Proof.
  revert l. unfold append_rows.
  induction rows as [|row rows IH]; intros l; cbn [fold_left].
  - by rewrite app_nil_r.
  - change (append_row row (Some l)) with (Some (l ++ [row])).
    rewrite IH, <- app_assoc. reflexivity.
Qed.

Lemma append_rows_default (rows : list csv_row) (f : csv_file) :
  default [] (append_rows rows f) = default [] f ++ rows.
Proof.
  destruct f as [l|]; [by rewrite append_rows_Some|].
  destruct rows as [|row rows]; [reflexivity|].
  change (append_rows (row :: rows) None) with (append_rows rows (Some [row])).
  by rewrite append_rows_Some.
Qed.

Lemma append_rows_app (a b : list csv_row) (f : csv_file) :
  append_rows (a ++ b) f = append_rows b (append_rows a f).
Proof. apply fold_left_app. Qed.

Lemma written_cons ws item items :
  written lib ws (item :: items)
  = match (process_file lib ws item None).1 with
    | Some (c :: cs) => map (str_cell lib) (c :: cs) :: written lib ws items
    | _ => written lib ws items
    end.
Proof.
  unfold written. cbn.
  destruct (process_file lib ws item None).1 as [[|c cs]|]; reflexivity.
Qed.

(** The loop appends to the result file the rows of [written]. *)
Lemma loop_sink ws items st :
  lmoments_csv (fs (fold_left (collect lib ws) items st))
  = append_rows (written lib ws items) (lmoments_csv (fs st)).
Proof.
  revert st. induction items as [|item items IH]; intros st; [reflexivity|].
  cbn [fold_left]. rewrite IH, written_cons. unfold collect.
  destruct (process_file lib ws item None).1 as [[|c cs]|]; reflexivity.
Qed.

(** The loop leaves the failure file to the workers. *)
Lemma loop_log ws items st :
  unprocessed_files_csv (fs (fold_left (collect lib ws) items st))
  = unprocessed_files_csv (fs st).
Proof.
  revert st. induction items as [|item items IH]; intros st; [reflexivity|].
  cbn [fold_left]. rewrite IH. unfold collect.
  destruct (process_file lib ws item None).1 as [[|c cs]|]; reflexivity.
Qed.

(** The result file after a run: untouched when nothing is left to do,
    and otherwise what was there, or the header when nothing was, followed
    by the rows of [written]. *)
Lemma main_sink malicious nonmalicious fs0 :
  let ledger := get_processed_files (lmoments_csv fs0) in
  let file_paths := file_paths_of malicious nonmalicious ledger in
  lmoments_csv (fs (main lib completion_order append_order malicious nonmalicious fs0))
  = match file_paths with
    | [] => lmoments_csv fs0
    | _ :: _ =>
        Some (match default [] (lmoments_csv fs0) with
              | [] => [columns]
              | r :: l => r :: l
              end
              ++ written lib ledger (completion_order file_paths))
    end.
Proof.
  intros ledger file_paths. unfold main. fold ledger. fold file_paths.
  destruct file_paths as [|item rest]; [reflexivity|].
  rewrite loop_sink. cbn [fs lmoments_csv].
  destruct (lmoments_csv fs0) as [[|r l]|];
    unfold append_row; cbn [default from_option id app];
    by rewrite append_rows_Some.
Qed.

Lemma main_log malicious nonmalicious fs0 :
  exists rows,
    default [] (unprocessed_files_csv
                  (fs (main lib completion_order append_order malicious nonmalicious fs0)))
    = default [] (unprocessed_files_csv fs0) ++ rows.
Proof.
  unfold main.
  destruct (file_paths_of malicious nonmalicious
              (get_processed_files (lmoments_csv fs0))) as [|item rest].
  - cbn [fs unprocessed_files_csv].
    destruct (unprocessed_files_csv fs0) as [l|]; cbn [default].
    + exists []. by rewrite app_nil_r.
    + by exists [["Filename"; "Error Message"]].
  - rewrite loop_log. cbn [fs unprocessed_files_csv].
    rewrite append_rows_default.
    destruct (unprocessed_files_csv fs0) as [l|]; cbn [default from_option id];
      eauto.
Qed.

(** ** The resume ledger and the enumeration *)

Lemma ledger_entries_extend (f : csv_file) (rows : list csv_row) :
  ledger_entries (Some (base_rows f ++ rows))
  = ledger_entries f ++ omap (fun row => py.strip <$> head row) rows.
Proof.
  unfold ledger_entries, base_rows.
  destruct f as [[|r l]|]; cbn [default from_option id app tail];
    [reflexivity | apply omap_app | reflexivity].
Qed.

Lemma main_sink_prefix malicious nonmalicious fs0 :
  exists rows,
    default [] (lmoments_csv
                  (fs (main lib completion_order append_order malicious nonmalicious fs0)))
    = default [] (lmoments_csv fs0) ++ rows.
Proof.
  rewrite main_sink. cbv zeta.
  destruct (file_paths_of _ _ _) as [|item rest].
  - exists []. by rewrite app_nil_r.
  - destruct (lmoments_csv fs0) as [[|r l]|]; cbn [default from_option id]; eauto.
Qed.

Lemma main_ledger_mono malicious nonmalicious fs0 :
  get_processed_files (lmoments_csv fs0)
  ⊆ get_processed_files
      (lmoments_csv (fs (main lib completion_order append_order malicious nonmalicious fs0))).
Proof.
  rewrite main_sink. cbv zeta.
  destruct (file_paths_of _ _ _) as [|item rest]; [done|].
  unfold get_processed_files.
  fold (base_rows (lmoments_csv fs0)). rewrite ledger_entries_extend.
  intros x. rewrite !elem_of_list_to_set, elem_of_app. auto.
Qed.

Lemma omap_enumerate_filter (root : string) (label : bool) (pf : gset string)
    (filenames : list string) :
  omap (fun filename =>
          if py.endswith filename ".dot"
          then if bool_decide (py.path_join root filename ∈ pf) then None
               else Some (py.path_join root filename, label)
          else None) filenames
  = filter (fun it : string * bool => it.1 ∉ pf)
      (omap (fun filename =>
               if py.endswith filename ".dot"
               then Some (py.path_join root filename, label)
               else None) filenames).
Proof.
  induction filenames as [|filename filenames IH]; [reflexivity|].
  csimpl. destruct (py.endswith filename ".dot"); [|exact IH].
  rewrite filter_cons. cbn [fst].
  case_bool_decide as Hin.
  - rewrite decide_False by (intros Hn; by apply Hn). exact IH.
  - rewrite decide_True by exact Hin. by rewrite IH.
Qed.

(** The enumeration keeps, of the files of the walk, those whose path is
    not in the ledger. *)
Lemma enumerate_filter (w : walk) (label : bool) (pf : gset string) :
  enumerate w label pf
  = filter (fun it : string * bool => it.1 ∉ pf) (enumerate w label ∅).
Proof.
  unfold enumerate. induction w as [|[root filenames] w IH]; [reflexivity|].
  cbn [map concat]. rewrite filter_app, <- IH. f_equal.
  apply omap_enumerate_filter.
Qed.

Lemma file_paths_of_filter (malicious nonmalicious : walk) (pf : gset string) :
  file_paths_of malicious nonmalicious pf
  = filter (fun it : string * bool => it.1 ∉ pf)
      (file_paths_of malicious nonmalicious ∅).
Proof.
  unfold file_paths_of. rewrite filter_app.
  by rewrite <- !enumerate_filter.
Qed.

(** The paths of a walk under a top directory whose name starts with a
    character that is not white space are left as they are by [strip]. *)
Lemma enumerate_strip (top top' : string) (c : ascii) (w : walk)
    (label : bool) (pf : gset string) (item : string * bool) :
  top = String c top' -> py.isspace c = false -> rooted top w ->
  item ∈ enumerate w label pf -> py.strip item.1 = item.1.
Proof.
  intros Htop Hc Hw. unfold enumerate.
  induction Hw as [|[root filenames] w Hroot Hw IH]; cbn [map concat].
  - by intros ?%not_elem_of_nil.
  - intros [Hin|Hin]%elem_of_app; [|by apply IH].
    apply list_elem_of_omap in Hin as (filename & _ & Hf).
    destruct (py.endswith filename ".dot") eqn:Hdot; [|discriminate].
    cbv zeta in Hf. case_bool_decide; [discriminate|].
    injection Hf as <-. cbn [fst].
    destruct (rooted_root top root c top' Htop Hroot) as [root' ->].
    by apply strip_path_join.
Qed.

End Run.

(** C9. A run only appends: what the result file and the failure file held
    before the run is still there after it, in place, so the identities of
    the ledger can only grow, over one run and over any sequence of runs. *)
Theorem main_appends_only (lib : Library)
    (completion_order : list (string * bool) -> list (string * bool))
    (append_order : list (list csv_row) -> list csv_row)
    (malicious nonmalicious : walk) (fs0 : files) :
  let fs1 := fs (main lib completion_order append_order malicious nonmalicious fs0) in
  (exists rows,
     default [] (lmoments_csv fs1) = default [] (lmoments_csv fs0) ++ rows)
  /\ (exists rows,
     default [] (unprocessed_files_csv fs1)
     = default [] (unprocessed_files_csv fs0) ++ rows)
  /\ get_processed_files (lmoments_csv fs0) ⊆ get_processed_files (lmoments_csv fs1)
  /\ (forall days,
     get_processed_files (lmoments_csv fs0)
     ⊆ get_processed_files (lmoments_csv (runs lib days fs0))).
Proof.
  cbv zeta. split; [apply main_sink_prefix|]. split; [apply main_log|].
  split; [apply main_ledger_mono|].
  intros days. revert fs0. unfold runs.
  induction days as [|[[[order appends] m] n] days IH]; intros fs0; [done|].
  cbn [fold_left fst snd]. etrans; [|apply IH]. apply main_ledger_mono.
Qed.

(** ** Resuming *)

Section Resume.

Variable lib : Library.
Variable completion_order : list (string * bool) -> list (string * bool).
Variable append_order : list (list csv_row) -> list csv_row.
Variables malicious nonmalicious : walk.

(** The order in which the pool of the second run hands the results back,
    and the order in which the appends of its workers reach the failure
    file. *)
Variable completion_order' : list (string * bool) -> list (string * bool).
Variable append_order' : list (list csv_row) -> list csv_row.

(** A pool hands back every item once, in some order. *)
Hypothesis completion_order_perm : forall l, completion_order l ≡ₚ l.
Hypothesis completion_order_perm' : forall l, completion_order' l ≡ₚ l.
(** The two walks are those of the directories of the program. *)
Hypothesis rooted_malicious : rooted "Malicious" malicious.
Hypothesis rooted_nonmalicious : rooted "Nonmalicious" nonmalicious.
(** A path names one file of the corpus. *)
Hypothesis corpus_NoDup : NoDup (file_paths_of malicious nonmalicious ∅).*1.

Let corpus : list (string * bool) := file_paths_of malicious nonmalicious ∅.
Let run (f : files) : files :=
  fs (main lib completion_order append_order malicious nonmalicious f).
Let run' (f : files) : files :=
  fs (main lib completion_order' append_order' malicious nonmalicious f).

Lemma corpus_strip item : item ∈ corpus -> py.strip item.1 = item.1.
Proof using rooted_malicious rooted_nonmalicious.
  unfold corpus, file_paths_of. intros [H|H]%elem_of_app.
  - by eapply (enumerate_strip "Malicious" _ "M") in H.
  - by eapply (enumerate_strip "Nonmalicious" _ "N") in H.
Qed.

Lemma elem_of_file_paths item pf :
  item ∈ file_paths_of malicious nonmalicious pf
  <-> (item.1 ∉ pf) /\ (item ∈ corpus).
Proof.
  rewrite file_paths_of_filter.
  apply (list_elem_of_filter (fun it : string * bool => it.1 ∉ pf)).
Qed.

Lemma has_row_not_in ws ws' item :
  item.1 ∉ ws -> item.1 ∉ ws' -> has_row lib ws item = has_row lib ws' item.
Proof.
  intros H H'. unfold has_row.
  by rewrite (process_file_not_in lib ws), (process_file_not_in lib ws').
Qed.

(** The identities the ledger reads back from the rows of [written]. *)
Lemma written_ids ws items :
  Forall (fun it : string * bool => py.strip it.1 = it.1) items ->
  omap (fun row => py.strip <$> head row) (written lib ws items)
  = (filter (fun it => has_row lib ws it = true) items).*1.
Proof.
  induction 1 as [|item items Hstrip _ IH]; [reflexivity|].
  rewrite written_cons, filter_cons.
  destruct (process_file lib ws item None) as [r log] eqn:E. cbn [fst].
  assert (Hh : has_row lib ws item
               = match r with Some (_ :: _) => true | _ => false end)
    by (unfold has_row; by rewrite E).
  destruct r as [[|c cs]|].
  - rewrite decide_False by (rewrite Hh; discriminate). exact IH.
  - rewrite decide_True by exact Hh.
    destruct item as [file_path is_malicious].
    apply process_file_row in E as (_ & _ & E).
    destruct E as (G & n & m & ad & de & di & ac & ap & d & b & k & c' & dl & bl
                   & cl & kl & _ & _ & _ & _ & _ & _ & _ & E).
    cbn [app] in E. injection E as -> _.
    csimpl. cbn [fst] in Hstrip. rewrite Hstrip, IH. reflexivity.
  - rewrite decide_False by (rewrite Hh; discriminate). exact IH.
Qed.

Lemma written_nil ws items :
  (forall item, item ∈ items -> has_row lib ws item = false) ->
  written lib ws items = [].
Proof.
  induction items as [|item items IH]; intros H; [reflexivity|].
  rewrite written_cons.
  pose proof (H item (list_elem_of_here _ _)) as Hi. unfold has_row in Hi.
  destruct (process_file lib ws item None).1 as [[|c cs]|]; try discriminate;
    apply IH; intros i Hin; apply H; by apply list_elem_of_further.
Qed.

Lemma base_rows_fixed f rows : base_rows (Some (base_rows f ++ rows)) = base_rows f ++ rows.
Proof.
  unfold base_rows at 1. cbn [default from_option id].
  unfold base_rows. destruct (default [] f); reflexivity.
Qed.

Lemma NoDup_filter_fst (P : string * bool -> Prop) `{!forall x, Decision (P x)}
    (l : list (string * bool)) :
  NoDup l.*1 -> NoDup (filter P l).*1.
Proof.
  intros Hnd. eapply sublist_NoDup; [exact Hnd|].
  apply fmap_sublist, sublist_filter.
Qed.

(** The ledger the second run starts from. *)
Lemma ledger_after_run fs0 item rest :
  file_paths_of malicious nonmalicious (get_processed_files (lmoments_csv fs0))
    = item :: rest ->
  ledger_entries (lmoments_csv (run fs0))
  = ledger_entries (lmoments_csv fs0)
    ++ (filter (fun it => has_row lib (get_processed_files (lmoments_csv fs0)) it = true)
          (completion_order (item :: rest))).*1.
Proof using completion_order_perm rooted_malicious rooted_nonmalicious.
  intros E. unfold run. rewrite main_sink. cbv zeta. rewrite E.
  fold (base_rows (lmoments_csv fs0)).
  rewrite ledger_entries_extend, written_ids; [reflexivity|].
  apply Forall_forall. intros it Hit. apply corpus_strip.
  rewrite completion_order_perm, <- E in Hit.
  by apply elem_of_file_paths in Hit as [_ ?].
Qed.

(** With [A] and [B] in the ledger and a corpus of [A], [B] and [C], in any
    order, the enumeration yields [C] alone. *)
Lemma enumerate_only_new (sink : csv_file) (A B C : string) (la lb lc : bool) :
  get_processed_files sink = {[A; B]} ->
  corpus ≡ₚ [(A, la); (B, lb); (C, lc)] ->
  file_paths_of malicious nonmalicious (get_processed_files sink) = [(C, lc)].
Proof using corpus_NoDup.
  intros Hs Hc. rewrite file_paths_of_filter. fold corpus.
  apply Permutation_singleton_r. rewrite Hc, Hs.
  unfold corpus in Hc. rewrite Hc in corpus_NoDup.
  apply NoDup_cons in corpus_NoDup as [HA [HB _]%NoDup_cons].
  cbn [fmap list_fmap fst] in HA, HB.
  rewrite !filter_cons, filter_nil. cbn [fst].
  rewrite decide_False by (intros Hn; apply Hn, elem_of_union; left;
                           by apply elem_of_singleton).
  rewrite decide_False by (intros Hn; apply Hn, elem_of_union; right;
                           by apply elem_of_singleton).
  rewrite decide_True; [reflexivity|].
  intros [->%elem_of_singleton | ->%elem_of_singleton]%elem_of_union.
  - apply HA. right. by left.
  - apply HB. by left.
Qed.

(** C1. Over an unchanged corpus a second run leaves the result file as the
    first run left it, so the identities of the file are the same; a run
    keeps the identities read back from the file free of duplicates; and the
    enumeration yields the files of the corpus whose path is not in the
    ledger: with [A] and [B] in the ledger and a corpus of [A], [B] and [C],
    in any order, only [C]. *)
Theorem resume_idempotent (fs0 : files) :
  lmoments_csv (run' (run fs0)) = lmoments_csv (run fs0)
  /\ (NoDup (ledger_entries (lmoments_csv fs0)) ->
      NoDup (ledger_entries (lmoments_csv (run fs0))))
  /\ (forall sink : csv_file,
        file_paths_of malicious nonmalicious (get_processed_files sink)
        = filter (fun it : string * bool => it.1 ∉ get_processed_files sink) corpus)
  /\ (forall (sink : csv_file) (A B C : string) (la lb lc : bool),
        get_processed_files sink = {[A; B]} ->
        corpus ≡ₚ [(A, la); (B, lb); (C, lc)] ->
        file_paths_of malicious nonmalicious (get_processed_files sink) = [(C, lc)]).
Proof using completion_order_perm completion_order_perm' rooted_malicious
  rooted_nonmalicious corpus_NoDup.
  pose proof (main_sink lib completion_order append_order malicious
                nonmalicious fs0) as H1.
  cbv zeta in H1.
  destruct (file_paths_of malicious nonmalicious
              (get_processed_files (lmoments_csv fs0))) as [|p l] eqn:E1.
  { (* nothing to do in the first run *)
    split; [|split; [|split]].
    - unfold run'. rewrite main_sink. cbv zeta. unfold run. by rewrite H1, E1.
    - unfold run. by rewrite H1.
    - intros sink. apply file_paths_of_filter.
    - apply enumerate_only_new. }
  pose proof (ledger_after_run fs0 p l E1) as HL.
  fold (base_rows (lmoments_csv fs0)) in H1.
  assert (Hord : forall item, item ∈ completion_order (p :: l) <->
                 (item.1 ∉ get_processed_files (lmoments_csv fs0)) /\ (item ∈ corpus)).
  { intros item. by rewrite completion_order_perm, <- E1, elem_of_file_paths. }
  split; [|split; [|split]].
  - unfold run', run in HL |- *.
    generalize dependent (fs (main lib completion_order append_order malicious nonmalicious fs0)).
    intros fs1 H1 HL.
    rewrite main_sink. cbv zeta.
    destruct (file_paths_of malicious nonmalicious
                (get_processed_files (lmoments_csv fs1))) as [|p' l'] eqn:E2; [done|].
    rewrite written_nil.
    { fold (base_rows (lmoments_csv fs1)). rewrite app_nil_r.
      rewrite H1 at 1. by rewrite base_rows_fixed. }
    intros item Hin. rewrite completion_order_perm', <- E2 in Hin.
    apply elem_of_file_paths in Hin as [Hnot Hc].
    destruct (has_row lib (get_processed_files (lmoments_csv fs1)) item) eqn:Hh;
      [exfalso|reflexivity].
    apply Hnot. unfold get_processed_files at 1. rewrite HL.
    apply elem_of_list_to_set, elem_of_app.
    assert (Hnot0 : item.1 ∉ get_processed_files (lmoments_csv fs0)).
    { intros Hin0. apply Hnot. unfold get_processed_files at 1. rewrite HL.
      apply elem_of_list_to_set, elem_of_app. left.
      by apply elem_of_list_to_set in Hin0. }
    right. apply list_elem_of_fmap. exists item. split; [reflexivity|].
    apply list_elem_of_filter. split.
    + by rewrite (has_row_not_in _ _ item Hnot0 Hnot).
    + by apply Hord.
  - intros Hnd. rewrite HL. apply NoDup_app. split; [exact Hnd|]. split.
    + intros x Hx (item & -> & Hitem)%list_elem_of_fmap.
      apply list_elem_of_filter in Hitem as [_ Hitem].
      apply Hord in Hitem as [Hnot _]. apply Hnot.
      by apply elem_of_list_to_set.
    + apply NoDup_filter_fst. rewrite completion_order_perm, <- E1.
      rewrite file_paths_of_filter. by apply NoDup_filter_fst.
  - intros sink. apply file_paths_of_filter.
  - apply enumerate_only_new.
Qed.

End Resume.

Lemma resume_idempotent_witness :
  let run := fun f =>
    fs (main sample.lib (@rev _) (@in_turn _) sample.malicious
          sample.nonmalicious f) in
  let run' := fun f =>
    fs (main sample.lib id (@concat _) sample.malicious sample.nonmalicious f) in
  lmoments_csv (run' (run sample.no_files)) = lmoments_csv (run sample.no_files)
  /\ file_paths_of sample.malicious sample.nonmalicious
       (get_processed_files sample.prior)
     = [("Nonmalicious/pair.dot", false)].
Proof.
  assert (Hperm : forall l : list (string * bool), rev l ≡ₚ l)
    by (intros l; symmetry; apply Permutation_rev).
  assert (Hm : rooted "Malicious" sample.malicious) by (repeat constructor).
  assert (Hn : rooted "Nonmalicious" sample.nonmalicious) by (repeat constructor).
  assert (Hnd : NoDup (file_paths_of sample.malicious sample.nonmalicious ∅).*1)
    by (apply (bool_decide_unpack _); vm_compute; exact I).
  destruct (resume_idempotent sample.lib (@rev _) (@in_turn _) sample.malicious
              sample.nonmalicious id (@concat _) Hperm (fun l => reflexivity l)
              Hm Hn Hnd sample.no_files)
    as (Hsame & _ & _ & Honly).
  cbv zeta. split; [exact Hsame|].
  apply (Honly sample.prior "Malicious/sub/two.dot" "Malicious/cycle.dot"
           "Nonmalicious/pair.dot" true true false).
  - vm_compute. reflexivity.
  - apply perm_swap.
Defined.

(** * Further properties *)

(** ** What a worker leaves behind *)

Lemma calculate_lmoments_total (values : list float) :
  exists t, calculate_lmoments values = Ok t.
Proof.
  destruct (Nat.ltb_spec (length (np.select_finite values)) 4) as [Hlt|Hge].
  - exists (PyInt 0, PyInt 0, PyInt 0, PyInt 0).
    unfold calculate_lmoments.
    destruct (Nat.ltb_spec (length (np.select_finite values)) 4); [reflexivity|lia].
  - eexists. by apply calculate_lmoments_enough.
Qed.

Lemma calculate_centrality_measures_all (lib : Library) (G : DiGraph) :
  (exists d b c k,
     calculate_centrality_measures lib G = (Some d, Some b, Some c, Some k))
  \/ calculate_centrality_measures lib G = (None, None, None, None).
Proof.
  unfold calculate_centrality_measures.
  destruct (nx.to_numpy_array G) as [A|]; cbn; [|by right].
  destruct (betweenness_centrality lib G) as [b|]; cbn; [|by right].
  destruct (closeness_centrality lib G) as [c|]; cbn; [|by right].
  destruct (clustering lib (nx.to_undirected G)) as [k|]; cbn; [|by right].
  left. eauto.
Qed.

(** X1. What [process_file] does with an item, in full.  An item found in
    the worker's set is skipped without a trace.  Any other item ends in
    exactly one of two ways: a row that starts with its identity and nothing
    added to the failure file, or no row and one or two failure rows, each
    made of the identity and a message: the parse error followed by the
    empty-graph message, or the empty-graph, statistics or centrality
    message alone.  The messages ["Number of nodes is zero"] and
    ["Error processing: ..."] are never recorded. *)
Theorem process_file_outcome (lib : Library) (pf : gset string)
    (file_path : string) (is_malicious : bool) (log : csv_file) :
  (file_path ∈ pf
   /\ process_file lib pf (file_path, is_malicious) log = (None, log))
  \/ ((file_path ∉ pf)
      /\ exists row,
           process_file lib pf (file_path, is_malicious) log = (Some row, log)
           /\ head row = Some (CStr file_path))
  \/ ((file_path ∉ pf)
      /\ exists msgs,
           process_file lib pf (file_path, is_malicious) log
           = (None, append_rows (map (fun msg => [file_path; msg]) msgs) log)
           /\ ((exists e, read_dot lib file_path = Raise e
                          /\ msgs = ["Error parsing: " +:+ e; message EmptyGraph])
               \/ msgs = [message EmptyGraph]
               \/ msgs = [message StatisticsError]
               \/ msgs = [message CentralityError])).
Proof.
  unfold process_file, parse_network_data, log_unprocessed_file.
  case_bool_decide as Hpf; [by left|]. right.
  destruct (read_dot lib file_path) as [G|e] eqn:EG.
  2: { right. split; [exact Hpf|].
       exists ["Error parsing: " +:+ e; message EmptyGraph].
       split; [reflexivity|]. left. eauto. }
  destruct ((nx.number_of_nodes G =? 0) || (nx.number_of_edges G =? 0)) eqn:Eempty.
  { right. split; [exact Hpf|]. exists [message EmptyGraph].
    split; [reflexivity|]. right. by left. }
  destruct (calculate_statistics lib G) as [[[[[[[n m] ad] de] di] ac] ap]|] eqn:ES.
  2: { right. split; [exact Hpf|]. exists [message StatisticsError].
       split; [reflexivity|]. right. right. by left. }
  apply calculate_statistics_num_nodes in ES as [-> ->].
  apply orb_false_elim in Eempty as [-> _].
  destruct (calculate_centrality_measures_all lib G) as [(d & b & c & k & ->) | ->].
  2: { right. split; [exact Hpf|]. exists [message CentralityError].
       split; [reflexivity|]. right. right. by right. }
  left. split; [exact Hpf|]. cbn.
  destruct (calculate_lmoments_total d) as [dl ->].
  destruct (calculate_lmoments_total b) as [bl ->].
  destruct (calculate_lmoments_total c) as [cl ->].
  destruct (calculate_lmoments_total k) as [kl ->].
  cbn. eexists. split; reflexivity.
Qed.

(** ** The estimator and the values that are not finite *)

(** X2. A value that is not finite (NaN or an infinity) has no part in the
    result of [calculate_lmoments], wherever it stands in the input. *)
Theorem calculate_lmoments_ignores_non_finite (l1 l2 : list float) (x : float) :
  np.isfinite x = false ->
  calculate_lmoments (l1 ++ x :: l2) = calculate_lmoments (l1 ++ l2).
Proof.
  intros Hx. unfold calculate_lmoments, np.select_finite.
  rewrite !List.filter_app. cbn [List.filter]. by rewrite Hx.
Qed.

Lemma calculate_lmoments_ignores_non_finite_witness :
  calculate_lmoments ([1; 2] ++ infinity :: [3; 4; 6])%float
  = calculate_lmoments ([1; 2] ++ [3; 4; 6])%float.
Proof.
  apply calculate_lmoments_ignores_non_finite. reflexivity.
Defined.

(** ** The structural statistics *)

Lemma mapM_ok {A B} (f : A -> result B) (l : list A) (r : list B) :
  mapM f l = Ok r -> forall x, x ∈ l -> exists y, f x = Ok y.
Proof.
  revert r. induction l as [|a l IH]; intros r H x Hx;
    [by apply not_elem_of_nil in Hx|].
  cbn in H. destruct (f a) as [b|] eqn:Ea; cbn in H; [|discriminate].
  destruct (mapM f l) as [r'|] eqn:El; cbn in H; [|discriminate].
  apply elem_of_cons in Hx as [->|Hx]; [eauto|]. by eapply IH.
Qed.

(** On a well-formed graph the directed search from a node lists distinct
    nodes of the graph, each reached from the start. *)
Lemma shortest_path_length_sound (G : DiGraph) (u : string) :
  well_formed G -> u ∈ nodes G ->
  let sp := nx.shortest_path_length (nx.successors G) (length (nodes G)) u in
  NoDup sp.*1 /\ forall x, x ∈ sp.*1 -> reachable G u x /\ x ∈ nodes G.
Proof.
  intros [Hnd Hedges] Hu. unfold nx.shortest_path_length.
  apply (bfs_invariant (nx.successors G)
           (fun x => reachable G u x /\ x ∈ nodes G) (length (nodes G))).
  - intros v x [Hr _] Hx. split; [by eapply reachable_step|].
    unfold nx.successors in Hx.
    apply list_elem_of_omap in Hx as ([[a b] wt] & He & Hb).
    destruct (String.eqb a v); [|discriminate]. injection Hb as ->.
    rewrite Forall_forall in Hedges. by apply Hedges in He as [_ ?].
  - apply NoDup_singleton.
  - intros x ->%list_elem_of_singleton. split; [constructor|exact Hu].
  - intros x ->%list_elem_of_singleton. split; [constructor|exact Hu].
Qed.

(** On a well-formed graph a directed search that lists as many nodes as the
    graph has reaches every node. *)
Lemma shortest_path_length_full (G : DiGraph) (u w : string) :
  well_formed G -> u ∈ nodes G -> w ∈ nodes G ->
  length (nx.shortest_path_length (nx.successors G) (length (nodes G)) u)
    = length (nodes G) ->
  reachable G u w.
Proof.
  intros Hwf Hu Hw Hlen.
  destruct (shortest_path_length_sound G u Hwf Hu) as [Hnd Hin].
  cbv zeta in Hnd, Hin.
  set (sp := nx.shortest_path_length (nx.successors G) (length (nodes G)) u) in *.
  assert (Hperm : sp.*1 ≡ₚ nodes G).
  { apply submseteq_length_Permutation.
    - apply NoDup_submseteq; [exact Hnd|]. intros x Hx. by apply Hin in Hx as [_ ?].
    - rewrite length_fmap. lia. }
  rewrite <- Hperm in Hw. by apply Hin in Hw as [? _].
Qed.

(** X3. [calculate_statistics] returns a numeric diameter only for a graph
    that is strongly connected: whenever the diameter it returns is an
    integer, every node of the graph is reached from every node along the
    directed edges (and the undirected projection is connected). *)
Theorem calculate_statistics_numeric_diameter (lib : Library) (G : DiGraph)
    (n m d : Z) (ad de ac ap : pynum) :
  well_formed G ->
  calculate_statistics lib G = Some (n, m, ad, de, PyInt d, ac, ap) ->
  strongly_connected G
  /\ nx.is_connected (nx.to_undirected G) = Ok true
  /\ nx.diameter G = Ok d.
Proof.
  intros Hwf H. unfold calculate_statistics in H.
  destruct (nx.is_connected (nx.to_undirected G)) as [[|]|]; cbn in H;
    [| |discriminate].
  2: { destruct (average_clustering lib (nx.to_undirected G)); cbn in H;
         discriminate. }
  destruct (nx.diameter G) as [d'|] eqn:Ed; cbn in H; [|discriminate].
  destruct (average_clustering lib (nx.to_undirected G)); cbn in H; [|discriminate].
  destruct (nx.average_shortest_path_length G); cbn in H; [|discriminate].
  injection H as _ _ _ _ -> _ _.
  split; [|by split].
  intros u w Hu Hw. apply shortest_path_length_full; try assumption.
  unfold nx.diameter, nx.eccentricity in Ed.
  destruct (mapM _ (nodes G)) as [e|] eqn:Em; cbn in Ed; [|discriminate].
  destruct (mapM_ok _ _ _ Em u Hu) as [y Hy]. cbv zeta in Hy.
  destruct (Nat.eqb_spec
    (length (nx.shortest_path_length (nx.successors G) (length (nodes G)) u))
    (length (nodes G))) as [Heq|Hne]; [exact Heq|].
  cbn in Hy. discriminate.
Qed.

Lemma calculate_statistics_numeric_diameter_witness :
  strongly_connected sample.G_cycle
  /\ nx.is_connected (nx.to_undirected sample.G_cycle) = Ok true
  /\ nx.diameter sample.G_cycle = Ok 2.
Proof.
  eapply (calculate_statistics_numeric_diameter sample.lib sample.G_cycle).
  - split; [apply (bool_decide_unpack _); vm_compute; exact I|].
    repeat constructor.
  - vm_compute. reflexivity.
Defined.

(** X4. The sentinels of [calculate_statistics].  On a graph without nodes
    it returns [None], the guard on the average degree notwithstanding.
    When it returns statistics, the counts are those of the graph, there is
    a node, and the diameter and the average path length are NaN together,
    exactly when the undirected projection is disconnected; otherwise they
    are what [nx.diameter] and [nx.average_shortest_path_length] return. *)
Theorem calculate_statistics_sentinels (lib : Library) (G : DiGraph) :
  (nodes G = [] -> calculate_statistics lib G = None)
  /\ forall n m ad de di ac ap,
       calculate_statistics lib G = Some (n, m, ad, de, di, ac, ap) ->
       n = nx.number_of_nodes G /\ m = nx.number_of_edges G /\ 0 < n
       /\ de = nx.density G
       /\ ((nx.is_connected (nx.to_undirected G) = Ok false
            /\ di = PyFloat nan /\ ap = PyFloat nan)
           \/ (nx.is_connected (nx.to_undirected G) = Ok true
               /\ (exists d, nx.diameter G = Ok d /\ di = PyInt d)
               /\ nx.average_shortest_path_length G = Ok ap)).
Proof.
  split.
  - intros Hn. unfold calculate_statistics, nx.is_connected, nx.to_undirected.
    cbn [nx.of_digraph]. by rewrite Hn.
  - intros n m ad de di ac ap H. unfold calculate_statistics in H.
    assert (Hpos : 0 < nx.number_of_nodes G).
    { unfold nx.number_of_nodes. unfold nx.is_connected, nx.to_undirected in H.
      cbn [nx.of_digraph] in H.
      destruct (nodes G); [discriminate | cbn; lia]. }
    destruct (nx.is_connected (nx.to_undirected G)) as [[|]|]; cbn in H;
      [| |discriminate].
    + destruct (nx.diameter G) as [d|]; cbn in H; [|discriminate].
      destruct (average_clustering lib (nx.to_undirected G)); cbn in H;
        [|discriminate].
      destruct (nx.average_shortest_path_length G) as [ap'|]; cbn in H;
        [|discriminate].
      injection H as <- <- _ <- <- _ <-.
      repeat split; try done. right. repeat split; eauto.
    + destruct (average_clustering lib (nx.to_undirected G)); cbn in H;
        [|discriminate].
      injection H as <- <- _ <- <- _ <-.
      repeat split; try done. left. by repeat split.
Qed.

Lemma fold_left_Zadd (l : list Z) (a : Z) :
  fold_left Z.add l a = a + fold_right Z.add 0 l.
Proof.
  revert a. induction l as [|x l IH]; intros a; cbn; [lia|]. rewrite IH. lia.
Qed.

(** A node that is listed once is counted once. *)
Lemma count_listed_once (a : string) (l : list string) :
  NoDup l -> a ∈ l ->
  fold_right Z.add 0 (map (fun u => if String.eqb a u then 1 else 0) l) = 1.
Proof.
  induction 1 as [|x l Hx Hnd IH]; [by intros ?%not_elem_of_nil|].
  intros Hin. cbn [map fold_right].
  destruct (String.eqb_spec a x) as [->|Hne].
  - assert (H0 : fold_right Z.add 0
                   (map (fun u => if String.eqb x u then 1 else 0) l) = 0).
    { clear IH Hin Hnd. induction l as [|y l IH]; [reflexivity|].
      cbn [map fold_right]. apply not_elem_of_cons in Hx as [Hxy Hx].
      destruct (String.eqb_spec x y); [congruence|]. rewrite IH by exact Hx. lia. }
    lia.
  - apply elem_of_cons in Hin as [?|Hin]; [congruence|]. rewrite IH by exact Hin. lia.
Qed.

Lemma fold_right_Zadd_map2 {A} (f g : A -> Z) (l : list A) :
  fold_right Z.add 0 (map (fun u => f u + g u) l)
  = fold_right Z.add 0 (map f l) + fold_right Z.add 0 (map g l).
Proof. induction l as [|x l IH]; cbn; [reflexivity|]. rewrite IH. lia. Qed.

(** Every edge leaves one node and enters one node. *)
Lemma degrees_count_edges (ns : list string) (es : list (string * string * weight_attr)) :
  NoDup ns ->
  Forall (fun e : string * string * weight_attr => e.1.1 ∈ ns /\ e.1.2 ∈ ns) es ->
  let G := {| nodes := ns; edges := es |} in
  fold_right Z.add 0 (map (fun u => Z.of_nat (length (nx.successors G u))) ns)
    = Z.of_nat (length es)
  /\ fold_right Z.add 0 (map (fun u => Z.of_nat (length (nx.predecessors G u))) ns)
    = Z.of_nat (length es).
Proof.
  intros Hnd Hes. cbv zeta. unfold nx.successors, nx.predecessors. cbn [edges].
  induction Hes as [|[[a b] wt] es [Ha Hb] Hes [IHs IHp]].
  - assert (Hz : forall l : list string,
                   fold_right Z.add 0 (map (fun _ => 0) l) = 0)
      by (induction l as [|x l IH]; cbn; [reflexivity|exact IH]).
    split; exact (Hz ns).
  - cbn [fst snd] in Ha, Hb. split.
    + rewrite (map_ext _ (fun u =>
        (if String.eqb a u then 1 else 0)
        + Z.of_nat (length (omap (fun e : string * string * weight_attr =>
              let '(a0, b0, _) := e in
              if String.eqb a0 u then Some b0 else None) es)))).
      2: { intros u. csimpl. destruct (String.eqb a u); cbn [length]; lia. }
      rewrite fold_right_Zadd_map2, (count_listed_once a ns Hnd Ha), IHs.
      cbn [length]. lia.
    + rewrite (map_ext _ (fun u =>
        (if String.eqb b u then 1 else 0)
        + Z.of_nat (length (omap (fun e : string * string * weight_attr =>
              let '(a0, b0, _) := e in
              if String.eqb b0 u then Some a0 else None) es)))).
      2: { intros u. csimpl. destruct (String.eqb b u); cbn [length]; lia. }
      rewrite fold_right_Zadd_map2, (count_listed_once b ns Hnd Hb), IHp.
      cbn [length]. lia.
Qed.

(** X5. On a well-formed graph the average degree [calculate_statistics]
    returns is the float quotient of twice the number of edges by the number
    of nodes: in-degree and out-degree together count every edge twice. *)
Theorem calculate_statistics_avg_degree (lib : Library) (G : DiGraph)
    (n m : Z) (ad de di ac ap : pynum) :
  well_formed G ->
  calculate_statistics lib G = Some (n, m, ad, de, di, ac, ap) ->
  ad = PyFloat (Z2F (2 * m) / Z2F n)%float.
Proof.
  intros [Hnd Hes] H.
  assert (Hsum : fold_left Z.add (map (nx.degree G) (nodes G)) 0
                 = 2 * nx.number_of_edges G).
  { destruct G as [ns es]. cbn [nodes edges] in *.
    destruct (degrees_count_edges ns es Hnd Hes) as [Hs Hp]. cbv zeta in Hs, Hp.
    rewrite fold_left_Zadd. unfold nx.degree, nx.number_of_edges. cbn [edges].
    rewrite (map_ext _ (fun u =>
               Z.of_nat (length (nx.successors {| nodes := ns; edges := es |} u))
               + Z.of_nat (length (nx.predecessors {| nodes := ns; edges := es |} u))))
      by (intros u; lia).
    rewrite fold_right_Zadd_map2, Hs, Hp. lia. }
  unfold calculate_statistics in H. rewrite Hsum in H.
  assert (Hpos : (0 <? nx.number_of_nodes G) = true).
  { apply Z.ltb_lt. unfold nx.number_of_nodes.
    unfold nx.is_connected, nx.to_undirected in H. cbn [nx.of_digraph] in H.
    destruct (nodes G); [discriminate | cbn; lia]. }
  rewrite Hpos in H.
  destruct (nx.is_connected (nx.to_undirected G)) as [conn|]; cbn in H; [|discriminate].
  destruct (if conn then PyInt <$> nx.diameter G else Ok (PyFloat nan)); cbn in H;
    [|discriminate].
  destruct (average_clustering lib (nx.to_undirected G)); cbn in H; [|discriminate].
  destruct (if conn then nx.average_shortest_path_length G else Ok (PyFloat nan));
    cbn in H; [|discriminate].
  by injection H as <- <- <- _ _ _ _.
Qed.

Lemma calculate_statistics_avg_degree_witness :
  exists n m ad de di ac ap,
    calculate_statistics sample.lib sample.G_two = Some (n, m, ad, de, di, ac, ap)
    /\ ad = PyFloat (Z2F (2 * m) / Z2F n)%float
    /\ ad = PyFloat 2.
Proof.
  destruct (calculate_statistics sample.lib sample.G_two)
    as [[[[[[[n m] ad] de] di] ac] ap]|] eqn:E; [|vm_compute in E; discriminate].
  exists n, m, ad, de, di, ac, ap. split; [reflexivity|]. split.
  - apply (calculate_statistics_avg_degree sample.lib sample.G_two
             n m ad de di ac ap); [|exact E].
    split; [apply (bool_decide_unpack _); vm_compute; exact I|]. repeat constructor.
  - vm_compute in E. by injection E as _ _ <- _ _ _ _.
Defined.

(** ** The resume ledger *)

Lemma lstrip_head (s : string) :
  py.lstrip s = "" \/ exists c t, py.lstrip s = String c t /\ py.isspace c = false.
Proof.
  induction s as [|c s IH]; [by left|]. cbn [py.lstrip].
  destruct (py.isspace c) eqn:Hc; [exact IH|]. right. eauto.
Qed.

Lemma rstrip_tail (s : string) :
  py.rstrip s = ""
  \/ exists p c, py.rstrip s = p +:+ String c "" /\ py.isspace c = false.
Proof.
  induction s as [|a s IH]; [by left|]. cbn [py.rstrip].
  destruct IH as [->|(p & c & -> & Hc)].
  - destruct (py.isspace a) eqn:Ha; [by left|]. right. by exists "", a.
  - right. exists (String a p), c. split; [|exact Hc].
    rewrite append_cons. by destruct p.
Qed.

Lemma rstrip_idemp (s : string) : py.rstrip (py.rstrip s) = py.rstrip s.
Proof.
  destruct (rstrip_tail s) as [->|(p & c & -> & Hc)]; [reflexivity|].
  by apply rstrip_fixed.
Qed.

Lemma rstrip_keeps_head (c : ascii) (t : string) :
  py.rstrip (String c t) = "" \/ exists t', py.rstrip (String c t) = String c t'.
Proof.
  cbn [py.rstrip]. destruct (py.rstrip t).
  - destruct (py.isspace c); eauto.
  - eauto.
Qed.

Lemma strip_idemp (s : string) : py.strip (py.strip s) = py.strip s.
Proof.
  unfold py.strip.
  destruct (lstrip_head s) as [->|(c & t & -> & Hc)]; [reflexivity|].
  assert (Hl : py.lstrip (py.rstrip (String c t)) = py.rstrip (String c t)).
  { destruct (rstrip_keeps_head c t) as [->|[t' ->]]; [reflexivity|].
    by apply lstrip_fixed. }
  rewrite Hl. apply rstrip_idemp.
Qed.

(** X6. Every identity of the ledger is free of leading and trailing white
    space, whatever the file read holds; so a path that [strip] changes is
    never found in the ledger. *)
Theorem get_processed_files_stripped (csvfile : csv_file) (x : string) :
  x ∈ get_processed_files csvfile -> py.strip x = x.
Proof.
  unfold get_processed_files, ledger_entries. rewrite elem_of_list_to_set.
  destruct csvfile as [rows|]; [|by intros ?%not_elem_of_nil].
  intros (row & _ & Hrow)%list_elem_of_omap.
  destruct (head row) as [y|]; [|discriminate].
  injection Hrow as <-. apply strip_idemp.
Qed.

Lemma get_processed_files_stripped_witness :
  py.strip "Malicious/sub/two.dot" = "Malicious/sub/two.dot"
  /\ "Malicious/sub/two.dot " ∉ get_processed_files sample.prior.
Proof.
  assert (H : "Malicious/sub/two.dot" ∈ get_processed_files sample.prior)
    by (apply (bool_decide_unpack _); vm_compute; exact I).
  split; [exact (get_processed_files_stripped sample.prior _ H)|].
  intros Hin. apply get_processed_files_stripped in Hin. discriminate.
Defined.

(** X7. Writing a row and reading the ledger back.  [write_result_to_csv]
    writes nothing for an empty row.  A row written to a file that has rows
    adds its first field, stripped, to the ledger read back; a row written
    to a file that is absent or empty is taken for the header and adds
    nothing. *)
Theorem ledger_after_write (lib : Library) (csvfile : csv_file) :
  write_result_to_csv lib [] csvfile = csvfile
  /\ forall first rest,
       get_processed_files (write_result_to_csv lib (first :: rest) csvfile)
       = match default [] csvfile with
         | [] => ∅
         | _ :: _ =>
             get_processed_files csvfile ∪ {[py.strip (str_cell lib first)]}
         end.
Proof.
  split; [reflexivity|]. intros first rest.
  unfold write_result_to_csv, append_row, get_processed_files, ledger_entries.
  destruct csvfile as [[|r l]|]; cbn [default from_option id app tail];
    [reflexivity| |reflexivity].
  rewrite omap_app, list_to_set_app_L. csimpl.
  by rewrite union_empty_r_L.
Qed.

(** ** The enumeration *)

Lemma endswith_append (a b suffix : string) :
  py.endswith b suffix = true -> py.endswith (a +:+ b) suffix = true.
Proof.
  intros H. induction a as [|c a IH]; [exact H|].
  rewrite append_cons. cbn [py.endswith].
  destruct (String.eqb (String c (a +:+ b)) suffix); [reflexivity|exact IH].
Qed.

Lemma endswith_path_join (root filename suffix : string) :
  py.endswith filename suffix = true ->
  py.endswith (py.path_join root filename) suffix = true.
Proof.
  intros H. unfold py.path_join.
  destruct (py.startswith filename "/"); [exact H|].
  destruct (String.eqb root "" || py.endswith root "/").
  - by apply endswith_append.
  - apply endswith_append. by apply (endswith_append "/").
Qed.

Lemma elem_of_enumerate (w : walk) (label : bool) (pf : gset string)
    (item : string * bool) :
  item ∈ enumerate w label pf
  <-> item.2 = label /\ (item.1 ∉ pf)
      /\ exists root filenames filename,
           (root, filenames) ∈ w /\ filename ∈ filenames
           /\ py.endswith filename ".dot" = true
           /\ item.1 = py.path_join root filename.
Proof.
  unfold enumerate. induction w as [|[root filenames] w IH]; cbn [map concat].
  - split; [by intros ?%not_elem_of_nil|].
    intros (_ & _ & r & fs' & f & Hin & _). by apply not_elem_of_nil in Hin.
  - rewrite elem_of_app, IH, list_elem_of_omap. split.
    + intros [(filename & Hf & Hsome)|(Hl & Hpf & r & fs' & f & Hw & Hrest)].
      * destruct (py.endswith filename ".dot") eqn:Hdot; [|discriminate].
        cbv zeta in Hsome. case_bool_decide as Hpf; [discriminate|].
        injection Hsome as <-. cbn [fst snd].
        split; [reflexivity|]. split; [exact Hpf|].
        exists root, filenames, filename. split; [by left|]. by repeat split.
      * split; [exact Hl|]. split; [exact Hpf|].
        exists r, fs', f. split; [by right|exact Hrest].
    + intros (Hl & Hpf & r & fs' & f & Hw & Hf & Hdot & Hpath).
      apply elem_of_cons in Hw as [[= -> ->]|Hw].
      * left. exists f. split; [exact Hf|]. rewrite Hdot. cbv zeta.
        rewrite <- Hpath, (bool_decide_eq_false_2 _ Hpf).
        destruct item as [p l]. cbn [fst snd] in *. by subst.
      * right. split; [exact Hl|]. split; [exact Hpf|].
        exists r, fs', f. by repeat split.
Qed.

(** X8. What [main] enumerates.  An item is enumerated exactly when its path
    is not in the ledger and is the join of a directory of one of the two
    walks with the name of a file of that directory ending in [.dot]; its
    label is true for the walk of [Malicious] and false for the walk of
    [Nonmalicious].  Every enumerated path ends in [.dot]. *)
Theorem file_paths_of_spec (malicious nonmalicious : walk) (pf : gset string)
    (item : string * bool) :
  (item ∈ file_paths_of malicious nonmalicious pf
   <-> (item.1 ∉ pf)
       /\ exists root filenames filename,
            filename ∈ filenames
            /\ py.endswith filename ".dot" = true
            /\ item.1 = py.path_join root filename
            /\ ((item.2 = true /\ (root, filenames) ∈ malicious)
                \/ (item.2 = false /\ (root, filenames) ∈ nonmalicious)))
  /\ (item ∈ file_paths_of malicious nonmalicious pf ->
      py.endswith item.1 ".dot" = true).
Proof.
  assert (Hiff : item ∈ file_paths_of malicious nonmalicious pf
   <-> (item.1 ∉ pf)
       /\ exists root filenames filename,
            filename ∈ filenames
            /\ py.endswith filename ".dot" = true
            /\ item.1 = py.path_join root filename
            /\ ((item.2 = true /\ (root, filenames) ∈ malicious)
                \/ (item.2 = false /\ (root, filenames) ∈ nonmalicious))).
  { unfold file_paths_of. rewrite elem_of_app, !elem_of_enumerate. split.
    - intros [(Hl & Hpf & r & fs' & f & Hw & Hf & Hdot & Hp)
             |(Hl & Hpf & r & fs' & f & Hw & Hf & Hdot & Hp)];
        (split; [exact Hpf|]); exists r, fs', f; repeat split; auto.
    - intros (Hpf & r & fs' & f & Hf & Hdot & Hp & [[Hl Hw]|[Hl Hw]]);
        [left|right]; (split; [exact Hl|]); (split; [exact Hpf|]);
        exists r, fs', f; by repeat split. }
  split; [exact Hiff|].
  intros (_ & r & fs' & f & _ & Hdot & -> & _)%Hiff.
  by apply endswith_path_join.
Qed.

(** ** Accounting for a run *)

Section Accounting.

Variable lib : Library.

Lemma process_file_log ws item log :
  (process_file lib ws item log).2 = append_rows (failure_rows lib ws item) log.
Proof.
  unfold failure_rows.
  destruct (process_file_effect lib ws item) as (r & rows & Hr & _ & _).
  rewrite !Hr. cbn [snd]. by rewrite append_rows_default.
Qed.

Lemma process_file_result ws item log :
  (process_file lib ws item log).1 = (process_file lib ws item None).1.
Proof.
  destruct (process_file_effect lib ws item) as (r & rows & Hr & _ & _).
  by rewrite !Hr.
Qed.

(** The label has no part in what becomes of an item. *)
Lemma process_file_label ws p a b :
  (is_Some (process_file lib ws (p, a) None).1
   <-> is_Some (process_file lib ws (p, b) None).1)
  /\ (process_file lib ws (p, a) None).2 = (process_file lib ws (p, b) None).2.
Proof.
  unfold process_file, parse_network_data.
  case_bool_decide; [done|].
  destruct (read_dot lib p) as [G|e]; [|done].
  destruct ((nx.number_of_nodes G =? 0) || (nx.number_of_edges G =? 0)); [done|].
  destruct (calculate_statistics lib G) as [[[[[[[n m] ad] de] di] ac] ap]|]; [|done].
  destruct (n =? 0); [done|].
  destruct (calculate_centrality_measures lib G) as [[[[d|] bc] c] k]; [|done].
  cbn. destruct (calculate_lmoments d); cbn; [|done].
  destruct (calculate_lmoments_of bc); cbn; [|done].
  destruct (calculate_lmoments_of c); cbn; [|done].
  destruct (calculate_lmoments_of k); cbn; [|done].
  split; [|reflexivity]. split; eauto.
Qed.

Lemma has_row_is_Some ws item :
  has_row lib ws item = true <-> is_Some (process_file lib ws item None).1.
Proof.
  unfold has_row. destruct item as [p a].
  destruct (process_file lib ws (p, a) None) as [r log] eqn:E. cbn [fst].
  destruct r as [[|c cs]|].
  - apply process_file_row in E as (_ & _ & E).
    destruct E as (G & n & m & ad & de & di & ac & ap & d & b & k & c' & dl & bl
                   & cl & kl & _ & _ & _ & _ & _ & _ & _ & E). discriminate.
  - split; eauto.
  - split; [discriminate|]. by intros [? ?].
Qed.

Lemma has_row_label ws p a b : has_row lib ws (p, a) = has_row lib ws (p, b).
Proof.
  destruct (process_file_label ws p a b) as [H _].
  destruct (has_row lib ws (p, a)) eqn:Ea, (has_row lib ws (p, b)) eqn:Eb;
    try reflexivity.
  - apply has_row_is_Some, H, has_row_is_Some in Ea. congruence.
  - apply has_row_is_Some, H, has_row_is_Some in Eb. congruence.
Qed.

(** An item that is not skipped leaves a row or failure rows, not both and
    not neither; the failure rows start with its identity. *)
Lemma failure_rows_spec ws item :
  item.1 ∉ ws ->
  Forall (fun row => head row = Some item.1) (failure_rows lib ws item)
  /\ (has_row lib ws item = true <-> failure_rows lib ws item = []).
Proof.
  intros Hws. unfold failure_rows.
  destruct (process_file_effect lib ws item) as (r & rows & Hr & Hrows & Hhead).
  assert (Hfst := has_row_is_Some ws item). rewrite Hr in *. cbn [fst snd] in *.
  rewrite append_rows_default. cbn [default from_option id app].
  split; [exact Hhead|]. rewrite Hfst. split; [exact Hrows|].
  intros ->. destruct item as [p a]. specialize (Hr None).
  unfold process_file, parse_network_data, log_unprocessed_file in Hr.
  rewrite (bool_decide_eq_false_2 _ Hws) in Hr.
  destruct r as [row|]; [eauto|]. exfalso.
  destruct (read_dot lib p) as [G|e]; [|discriminate].
  destruct ((nx.number_of_nodes G =? 0) || (nx.number_of_edges G =? 0));
    [discriminate|].
  destruct (calculate_statistics lib G) as [[[[[[[n m] ad] de] di] ac] ap]|];
    [|discriminate].
  destruct (n =? 0); [discriminate|].
  destruct (calculate_centrality_measures lib G) as [[[[d|] bc] c] k];
    [|discriminate].
  match type of Hr with
  | (match ?body with Ok _ => _ | Raise _ => _ end) = _ =>
      destruct body; discriminate
  end.
Qed.

Lemma filter_ext_in {A} (P Q : A -> Prop) `{!forall x, Decision (P x)}
    `{!forall x, Decision (Q x)} (l : list A) :
  (forall x, x ∈ l -> P x <-> Q x) -> filter P l = filter Q l.
Proof.
  induction l as [|a l IH]; intros Hext; [reflexivity|].
  rewrite !filter_cons.
  rewrite IH by (intros x Hx; apply Hext; by right).
  pose proof (Hext a (list_elem_of_here _ _)) as Ha.
  destruct (decide (P a)), (decide (Q a)); tauto.
Qed.

End Accounting.

Section Interleaving.

Context {A : Type}.

Lemma concat_nils (ls : list (list A)) :
  Forall (fun l => l = []) ls -> concat ls = [].
Proof. induction 1 as [|l ls -> _ IH]; [reflexivity|exact IH]. Qed.

(** An interleaving holds the elements of the lists, each as often. *)
Lemma interleaving_Permutation (ls : list (list A)) (out : list A) :
  interleaving ls out -> out ≡ₚ concat ls.
Proof.
  induction 1 as [ls Hnil|ls1 x l ls2 out _ IH].
  - by rewrite concat_nils.
  - rewrite concat_app, concat_cons in *. cbn [app].
    rewrite <- Permutation_middle. by constructor.
Qed.

Lemma interleaving_nil_cons (ls : list (list A)) (out : list A) :
  interleaving ls out -> interleaving ([] :: ls) out.
Proof.
  induction 1 as [ls Hnil|ls1 x l ls2 out _ IH].
  - constructor. by constructor.
  - by apply (interleaving_take ([] :: ls1)).
Qed.

(** One list after the other is an interleaving. *)
Lemma interleaving_concat (ls : list (list A)) : interleaving ls (concat ls).
Proof.
  induction ls as [|l ls IH]; [by constructor|].
  cbn [concat]. induction l as [|x l IHl].
  - by apply interleaving_nil_cons.
  - by apply (interleaving_take []).
Qed.

Lemma interleaving_heads (ls2 : list (list A)) :
  forall (ls1 : list (list A)) (out : list A),
    interleaving (ls1 ++ map tail ls2) out ->
    interleaving (ls1 ++ ls2) (omap head ls2 ++ out).
Proof.
  induction ls2 as [|l ls2 IH]; intros ls1 out H; [exact H|].
  destruct l as [|x l]; cbn [map tail omap head] in *.
  - rewrite cons_middle, app_assoc in H |- *. cbn [app]. by apply IH.
  - cbn [app]. constructor.
    rewrite cons_middle, app_assoc in H |- *. by apply IH.
Qed.

Lemma interleaving_round_robin (rounds : nat) :
  forall ls : list (list A),
    Forall (fun l => (length l <= rounds)%nat) ls ->
    interleaving ls (round_robin rounds ls).
Proof.
  induction rounds as [|rounds IH]; intros ls Hls; cbn [round_robin].
  - constructor. eapply Forall_impl; [exact Hls|].
    intros [|x l] Hl; [reflexivity|cbn in Hl; lia].
  - apply (interleaving_heads ls []). cbn [app]. apply IH.
    apply Forall_fmap. eapply Forall_impl; [exact Hls|].
    intros [|x l] Hl; cbn in *; lia.
Qed.

(** Taking the rows in turn is an interleaving. *)
Lemma interleaving_in_turn (ls : list (list A)) : interleaving ls (in_turn ls).
Proof.
  apply interleaving_round_robin, Forall_forall. intros l Hl.
  apply list_elem_of_split in Hl as (ls1 & ls2 & ->).
  rewrite concat_app, concat_cons, !length_app. lia.
Qed.

End Interleaving.

Section RunAccounting.

Variable lib : Library.
Variable completion_order : list (string * bool) -> list (string * bool).
Variable append_order : list (list csv_row) -> list csv_row.
Variables malicious nonmalicious : walk.
Hypothesis completion_order_perm : forall l, completion_order l ≡ₚ l.

Lemma elem_of_concat_fmap {A B} (f : A -> list B) (l : list A) (y : B) :
  y ∈ concat (map f l) <-> exists x, x ∈ l /\ y ∈ f x.
Proof.
  induction l as [|a l IH]; cbn [map concat].
  - split; [by intros ?%not_elem_of_nil|]. intros (x & Hx & _).
    by apply not_elem_of_nil in Hx.
  - rewrite elem_of_app, IH. split.
    + intros [Hy|(x & Hx & Hy)]; [exists a; split; [by left|done]|].
      exists x. split; [by right|done].
    + intros (x & [->|Hx]%elem_of_cons & Hy); [by left|]. right. eauto.
Qed.

(** The failure file after a run that has work: what was there, or the
    header, followed by the rows of the workers in the order in which their
    appends reached the file. *)
Lemma main_log_exact fs0 item rest :
  file_paths_of malicious nonmalicious (get_processed_files (lmoments_csv fs0))
    = item :: rest ->
  unprocessed_files_csv
    (fs (main lib completion_order append_order malicious nonmalicious fs0))
  = Some (log_rows (unprocessed_files_csv fs0)
          ++ append_order
               (recorded lib (get_processed_files (lmoments_csv fs0))
                  (item :: rest))).
Proof.
  intros E. unfold main. rewrite E, loop_log. cbn [fs unprocessed_files_csv].
  fold (recorded lib (get_processed_files (lmoments_csv fs0)) (item :: rest)).
  destruct (unprocessed_files_csv fs0); cbn [log_rows]; by rewrite append_rows_Some.
Qed.

(** The first fields of the rows of [written]. *)
Lemma written_heads ws items :
  omap head (written lib ws items)
  = (filter (fun it => has_row lib ws it = true) items).*1.
Proof.
  induction items as [|item items IH]; [reflexivity|].
  rewrite written_cons, filter_cons.
  destruct (process_file lib ws item None) as [r log] eqn:E. cbn [fst].
  assert (Hh : has_row lib ws item
               = match r with Some (_ :: _) => true | _ => false end)
    by (unfold has_row; by rewrite E).
  destruct r as [[|c cs]|].
  - rewrite decide_False by (rewrite Hh; discriminate). exact IH.
  - rewrite decide_True by exact Hh.
    destruct item as [file_path is_malicious].
    apply process_file_row in E as (_ & _ & E).
    destruct E as (G & n & m & ad & de & di & ac & ap & d & b & k & c' & dl & bl
                   & cl & kl & _ & _ & _ & _ & _ & _ & _ & E).
    cbn [app] in E. injection E as -> _. csimpl. by rewrite IH.
  - rewrite decide_False by (rewrite Hh; discriminate). exact IH.
Qed.

Lemma item_of_file_paths item pf :
  item ∈ file_paths_of malicious nonmalicious pf ->
  (item.1 ∉ pf) /\ item ∈ file_paths_of malicious nonmalicious pf.
Proof.
  intros H. split; [|exact H].
  rewrite file_paths_of_filter in H.
  by apply (list_elem_of_filter (fun it : string * bool => it.1 ∉ pf)) in H as [? _].
Qed.

(** The pool lets the appends of its workers reach the failure file one
    row at a time, the rows of an item in their order. *)
Hypothesis append_order_interleaves :
  forall ls, interleaving ls (append_order ls).

(** X9. The books of a run that has work.  The result file is what it was,
    or the header, followed by the rows of the items that gave one, in the
    order in which the pool handed them back.  The failure file is what it
    was, or its header, followed by an interleaving of the failure rows of
    the items: the workers append side by side, so the rows of an item keep
    their order and the rows of different items mix.  Every enumerated
    identity is in one of the two files after the run, and none is added to
    both. *)
Theorem main_accounting (fs0 : files) :
  let ledger := get_processed_files (lmoments_csv fs0) in
  let items := file_paths_of malicious nonmalicious ledger in
  let after :=
    fs (main lib completion_order append_order malicious nonmalicious fs0) in
  let rows := written lib ledger (completion_order items) in
  items <> [] ->
  lmoments_csv after = Some (base_rows (lmoments_csv fs0) ++ rows)
  /\ exists failures,
       unprocessed_files_csv after
       = Some (log_rows (unprocessed_files_csv fs0) ++ failures)
       /\ interleaving (recorded lib ledger items) failures
       /\ (forall p, p ∈ items.*1
                     <-> p ∈ omap head rows \/ p ∈ omap head failures)
       /\ (forall p, ~ (p ∈ omap head rows /\ p ∈ omap head failures)).
Proof using completion_order_perm append_order_interleaves.
  intros ledger items after rows Hitems.
  subst rows items.
  destruct (file_paths_of malicious nonmalicious ledger) as [|item rest] eqn:E;
    [done|]. clear Hitems.
  set (rows := written lib ledger (completion_order (item :: rest))).
  set (failures := append_order (recorded lib ledger (item :: rest))).
  pose proof (append_order_interleaves (recorded lib ledger (item :: rest)))
    as Hmix. fold failures in Hmix.
  pose proof (interleaving_Permutation _ _ Hmix) as Hperm.
  assert (Hfail : forall p, p ∈ omap head failures ->
            exists it, it ∈ item :: rest /\ it.1 = p
                       /\ has_row lib ledger it = false).
  { intros p (row & Hrow & Hhead)%list_elem_of_omap.
    rewrite Hperm in Hrow. unfold recorded in Hrow.
    apply elem_of_concat_fmap in Hrow as (it & Hit & Hrow).
    exists it. split; [exact Hit|].
    rewrite <- E in Hit. apply item_of_file_paths in Hit as [Hnot _].
    destruct (failure_rows_spec lib ledger it Hnot) as [Hheads Hrows].
    rewrite Forall_forall in Hheads. apply Hheads in Hrow as Hp.
    split; [congruence|].
    destruct (has_row lib ledger it) eqn:Hh; [|reflexivity].
    rewrite (proj1 Hrows eq_refl) in Hrow. by apply not_elem_of_nil in Hrow. }
  split.
  { unfold after. rewrite main_sink. cbv zeta. fold ledger. by rewrite E. }
  exists failures. split; [|split; [|split]].
  - unfold after, failures, ledger. by apply main_log_exact.
  - exact Hmix.
  - intros p. unfold rows. rewrite written_heads. split.
    + intros (it & -> & Hit)%list_elem_of_fmap.
      assert (Hnot : it.1 ∉ ledger).
      { rewrite <- E in Hit. by apply item_of_file_paths in Hit as [? _]. }
      destruct (failure_rows_spec lib ledger it Hnot) as [Hheads Hrows].
      destruct (has_row lib ledger it) eqn:Hh.
      * left. apply list_elem_of_fmap. exists it. split; [reflexivity|].
        apply list_elem_of_filter. split; [exact Hh|].
        by rewrite completion_order_perm.
      * right. destruct (failure_rows lib ledger it) as [|row frows] eqn:Ef.
        { by pose proof (proj2 Hrows eq_refl). }
        apply list_elem_of_omap. exists row. split.
        -- rewrite Hperm. unfold recorded. apply elem_of_concat_fmap.
           exists it. split; [exact Hit|]. rewrite Ef. by left.
        -- by apply Forall_cons in Hheads as [? _].
    + intros [(it & -> & Hit)%list_elem_of_fmap | (it & Hit & <- & _)%Hfail].
      * apply list_elem_of_filter in Hit as [_ Hit].
        rewrite completion_order_perm in Hit. by apply list_elem_of_fmap_2.
      * by apply list_elem_of_fmap_2.
  - intros p [Hrow (it' & _ & <- & Hh')%Hfail]. unfold rows in Hrow.
    rewrite written_heads in Hrow.
    apply list_elem_of_fmap in Hrow as (it & Heq & Hit).
    apply list_elem_of_filter in Hit as [Hh _].
    destruct it as [p a], it' as [p' b]. cbn [fst] in Heq. subst p'.
    rewrite (has_row_label lib ledger p a b) in Hh. congruence.
Qed.

End RunAccounting.

Lemma main_accounting_witness :
  let after :=
    fs (main sample.lib (@rev _) (@in_turn _) sample.malicious_unreadable
          sample.nonmalicious sample.no_files) in
  lmoments_csv after
  = Some (base_rows None
          ++ written sample.lib ∅
               [("Nonmalicious/pair.dot", false);
                ("Malicious/y.dot", true); ("Malicious/x.dot", true)])
  /\ omap head (default [] (lmoments_csv after))
     = ["Filename"; "Nonmalicious/pair.dot"]
  /\ unprocessed_files_csv after
     = Some [["Filename"; "Error Message"];
             ["Malicious/x.dot"; "Error parsing: syntax error"];
             ["Malicious/y.dot"; "Error parsing: syntax error"];
             ["Malicious/x.dot"; "Graph is empty or couldn't be parsed."];
             ["Malicious/y.dot"; "Graph is empty or couldn't be parsed."]].
Proof.
  assert (Hperm : forall l : list (string * bool), rev l ≡ₚ l)
    by (intros l; symmetry; apply Permutation_rev).
  destruct (main_accounting sample.lib (@rev _) (@in_turn _)
              sample.malicious_unreadable sample.nonmalicious Hperm
              (@interleaving_in_turn _) sample.no_files)
    as (Hout & failures & Hlog & _).
  { vm_compute. discriminate. }
  cbv zeta. split; [exact Hout|]. split; vm_compute; reflexivity.
Defined.

Section Rerun.

Variable lib : Library.
Variable completion_order : list (string * bool) -> list (string * bool).
Variable append_order : list (list csv_row) -> list csv_row.
Variables malicious nonmalicious : walk.
Hypothesis completion_order_perm : forall l, completion_order l ≡ₚ l.
Hypothesis rooted_malicious : rooted "Malicious" malicious.
Hypothesis rooted_nonmalicious : rooted "Nonmalicious" nonmalicious.

Let run (f : files) : orchestrator :=
  main lib completion_order append_order malicious nonmalicious f.

Lemma failure_rows_not_in ws ws' item :
  item.1 ∉ ws -> item.1 ∉ ws' ->
  failure_rows lib ws item = failure_rows lib ws' item.
Proof.
  intros H H'. unfold failure_rows.
  by rewrite (process_file_not_in lib ws), (process_file_not_in lib ws').
Qed.

Lemma recorded_not_in ws ws' items :
  Forall (fun it : string * bool => (it.1 ∉ ws) /\ (it.1 ∉ ws')) items ->
  recorded lib ws items = recorded lib ws' items.
Proof.
  unfold recorded. induction 1 as [|it items [H H'] _ IH]; [reflexivity|].
  cbn [map]. by rewrite IH, (failure_rows_not_in ws ws').
Qed.

Lemma main_log_nil order appends fs0 :
  file_paths_of malicious nonmalicious (get_processed_files (lmoments_csv fs0))
    = [] ->
  unprocessed_files_csv (fs (main lib order appends malicious nonmalicious fs0))
  = Some (log_rows (unprocessed_files_csv fs0)).
Proof.
  intros E. unfold main. rewrite E. cbn [fs unprocessed_files_csv].
  by destruct (unprocessed_files_csv fs0).
Qed.

(** The ledger a start after a run reads back: the ledger the run started
    from and the identities of the items that gave a row. *)
Lemma ledger_of_run fs0 p :
  let ledger := get_processed_files (lmoments_csv fs0) in
  p ∈ get_processed_files (lmoments_csv (fs (run fs0)))
  <-> p ∈ ledger
      \/ exists it, it ∈ file_paths_of malicious nonmalicious ledger
                    /\ it.1 = p /\ has_row lib ledger it = true.
Proof using completion_order_perm rooted_malicious rooted_nonmalicious.
  intros ledger. unfold run.
  destruct (file_paths_of malicious nonmalicious ledger) as [|item rest] eqn:E.
  - rewrite main_sink. cbv zeta. fold ledger. rewrite E. split; [by left|].
    intros [H|(it & Hit & _)]; [exact H|]. by apply not_elem_of_nil in Hit.
  - unfold get_processed_files at 1.
    rewrite (ledger_after_run lib completion_order append_order malicious
               nonmalicious completion_order_perm rooted_malicious
               rooted_nonmalicious fs0 item rest E).
    rewrite elem_of_list_to_set, elem_of_app. fold ledger.
    assert (Hl : p ∈ ledger <-> p ∈ ledger_entries (lmoments_csv fs0))
      by apply elem_of_list_to_set.
    rewrite Hl. apply or_iff_compat_l. rewrite list_elem_of_fmap. split.
    + intros (it & -> & Hit).
      apply (list_elem_of_filter (fun it => has_row lib ledger it = true))
        in Hit as [Hh Hit].
      rewrite completion_order_perm in Hit. eauto.
    + intros (it & Hit & <- & Hh). exists it. split; [reflexivity|].
      apply (list_elem_of_filter (fun it => has_row lib ledger it = true)).
      split; [exact Hh|]. by rewrite completion_order_perm.
Qed.

(** What the next start finds to do: the items of the run that gave no
    row. *)
Lemma file_paths_after_run fs0 :
  let ledger := get_processed_files (lmoments_csv fs0) in
  file_paths_of malicious nonmalicious
    (get_processed_files (lmoments_csv (fs (run fs0))))
  = filter (fun it => has_row lib ledger it = false)
      (file_paths_of malicious nonmalicious ledger).
Proof using completion_order_perm rooted_malicious rooted_nonmalicious.
  intros ledger.
  rewrite (file_paths_of_filter _ _ ledger), file_paths_of_filter.
  rewrite list_filter_filter. apply filter_ext_in. intros it Hit.
  rewrite ledger_of_run. cbv zeta. fold ledger. split.
  - intros Hnot. split; [|tauto].
    destruct (has_row lib ledger it) eqn:Hh; [|reflexivity].
    exfalso. apply Hnot. right. exists it. split; [|done].
    rewrite file_paths_of_filter.
    apply (list_elem_of_filter (fun it : string * bool => it.1 ∉ ledger)).
    split; [tauto|exact Hit].
  - intros [Hh Hnot] [Hin|(it' & _ & Heq & Hh')]; [done|].
    destruct it as [q a], it' as [q' b]. cbn [fst] in Heq. subst q'.
    rewrite (has_row_label lib ledger q b a) in Hh'. congruence.
Qed.

Lemma collect_processed_files ws st item p :
  p ∈ processed_files (collect lib ws st item)
  <-> p ∈ processed_files st \/ (has_row lib ws item = true /\ item.1 = p).
Proof.
  unfold collect, has_row.
  destruct (process_file lib ws item None) as [r log] eqn:E. cbn [fst].
  destruct r as [[|c row]|]; cbn [processed_files].
  - split; [by left|]. by intros [?|[? _]].
  - destruct item as [file_path is_malicious].
    apply process_file_row in E as (_ & _ & E).
    destruct E as (G & n & m & ad & de & di & ac & ap & d & b & k & c' & dl & bl
                   & cl & kl & _ & _ & _ & _ & _ & _ & _ & E).
    cbn [app] in E. injection E as -> _. cbn [str_cell fst].
    rewrite elem_of_union, elem_of_singleton. split.
    + intros [->|?]; [by right|by left].
    + intros [?|[_ <-]]; [by right|by left].
  - split; [by left|]. by intros [?|[? _]].
Qed.

Lemma loop_processed_files ws items st p :
  p ∈ processed_files (fold_left (collect lib ws) items st)
  <-> p ∈ processed_files st
      \/ exists it, it ∈ items /\ it.1 = p /\ has_row lib ws it = true.
Proof.
  revert st. induction items as [|item items IH]; intros st; cbn [fold_left].
  - split; [by left|]. intros [?|(it & Hit & _)]; [done|].
    by apply not_elem_of_nil in Hit.
  - rewrite IH, collect_processed_files. split.
    + intros [[?|[Hh <-]]|(it & Hit & <- & Hh)].
      * by left.
      * right. exists item. split; [by left|done].
      * right. exists it. split; [by right|done].
    + intros [?|(it & [->|Hit]%elem_of_cons & <- & Hh)].
      * by left; left.
      * by left; right.
      * right. eauto.
Qed.

(** X11. The orchestrator's ledger and the result file stay in step: the
    set of identities the orchestrator holds when its run ends is the set a
    fresh start reads back from the result file the run leaves. *)
Theorem main_ledger_in_step (fs0 : files) :
  processed_files (run fs0) = get_processed_files (lmoments_csv (fs (run fs0))).
Proof using completion_order_perm rooted_malicious rooted_nonmalicious.
  apply set_eq. intros p. rewrite ledger_of_run. cbv zeta. unfold run, main.
  destruct (file_paths_of malicious nonmalicious
              (get_processed_files (lmoments_csv fs0))) as [|item rest] eqn:E.
  - cbn [processed_files]. split; [by left|].
    intros [?|(it & Hit & _)]; [done|]. by apply not_elem_of_nil in Hit.
  - rewrite loop_processed_files. cbn [processed_files].
    apply or_iff_compat_l. split; intros (it & Hit & Hrest); exists it.
    + by rewrite completion_order_perm in Hit.
    + by rewrite completion_order_perm.
Qed.

(** The order in which the pool of the next run hands the results back,
    and the order in which the appends of its workers reach the failure
    file: one row at a time, the rows of an item in their order. *)
Variable completion_order' : list (string * bool) -> list (string * bool).
Variable append_order' : list (list csv_row) -> list csv_row.
Hypothesis completion_order_perm' : forall l, completion_order' l ≡ₚ l.
Hypothesis append_order_interleaves' :
  forall ls, interleaving ls (append_order' ls).

Let run' (f : files) : orchestrator :=
  main lib completion_order' append_order' malicious nonmalicious f.

(** X10. A file that gave no row is not in the ledger, so the next run over
    the same corpus takes it up again: the second run is handed the items
    the first run rejected, these only, and their failure rows are appended
    to the failure file a second time, interleaved as the workers of the
    second run write them. *)
Theorem rerun_records_failures_again (fs0 : files) :
  let ledger := get_processed_files (lmoments_csv fs0) in
  let rejected :=
    filter (fun it => has_row lib ledger it = false)
      (file_paths_of malicious nonmalicious ledger) in
  let first := fs (run fs0) in
  file_paths_of malicious nonmalicious (get_processed_files (lmoments_csv first))
  = rejected
  /\ exists failures,
       unprocessed_files_csv (fs (run' first))
       = Some (log_rows (unprocessed_files_csv first) ++ failures)
       /\ interleaving (recorded lib ledger rejected) failures.
Proof using completion_order_perm completion_order_perm' rooted_malicious
  rooted_nonmalicious append_order_interleaves'.
  intros ledger rejected first.
  pose proof (file_paths_after_run fs0) as Hnext. cbv zeta in Hnext.
  fold ledger rejected first in Hnext. split; [exact Hnext|].
  destruct rejected as [|item rest] eqn:Er.
  - exists []. unfold run'. rewrite (main_log_nil _ _ _ Hnext).
    split; [by rewrite app_nil_r|]. by constructor.
  - exists (append_order' (recorded lib ledger (item :: rest))).
    split; [|apply append_order_interleaves'].
    unfold run'.
    rewrite (main_log_exact lib completion_order' append_order' malicious
               nonmalicious first item rest Hnext).
    do 3 f_equal. apply recorded_not_in, Forall_forall. intros it Hit. split.
    + rewrite <- Hnext, file_paths_of_filter in Hit.
      by apply (list_elem_of_filter
                  (fun it : string * bool =>
                     it.1 ∉ get_processed_files (lmoments_csv first)))
        in Hit as [? _].
    + rewrite <- Er in Hit. unfold rejected in Hit.
      apply (list_elem_of_filter (fun it => has_row lib ledger it = false))
        in Hit as [_ Hit].
      rewrite file_paths_of_filter in Hit.
      by apply (list_elem_of_filter (fun it : string * bool => it.1 ∉ ledger))
        in Hit as [? _].
Qed.

End Rerun.

Lemma rerun_records_failures_again_witness :
  let first :=
    fs (main sample.lib (@rev _) (@concat _) sample.malicious_unreadable
          sample.nonmalicious sample.no_files) in
  file_paths_of sample.malicious_unreadable sample.nonmalicious
    (get_processed_files (lmoments_csv first))
  = [("Malicious/x.dot", true); ("Malicious/y.dot", true)]
  /\ unprocessed_files_csv
       (fs (main sample.lib id (@in_turn _) sample.malicious_unreadable
              sample.nonmalicious first))
     = Some [["Filename"; "Error Message"];
             ["Malicious/x.dot"; "Error parsing: syntax error"];
             ["Malicious/x.dot"; "Graph is empty or couldn't be parsed."];
             ["Malicious/y.dot"; "Error parsing: syntax error"];
             ["Malicious/y.dot"; "Graph is empty or couldn't be parsed."];
             ["Malicious/x.dot"; "Error parsing: syntax error"];
             ["Malicious/y.dot"; "Error parsing: syntax error"];
             ["Malicious/x.dot"; "Graph is empty or couldn't be parsed."];
             ["Malicious/y.dot"; "Graph is empty or couldn't be parsed."]].
Proof.
  assert (Hperm : forall l : list (string * bool), rev l ≡ₚ l)
    by (intros l; symmetry; apply Permutation_rev).
  assert (Hm : rooted "Malicious" sample.malicious_unreadable)
    by (repeat constructor).
  assert (Hn : rooted "Nonmalicious" sample.nonmalicious)
    by (repeat constructor).
  destruct (rerun_records_failures_again sample.lib (@rev _) (@concat _)
              sample.malicious_unreadable sample.nonmalicious Hperm Hm Hn
              id (@in_turn _) (fun l => reflexivity l) (@interleaving_in_turn _)
              sample.no_files) as [Hnext _].
  cbv zeta. rewrite Hnext. split; vm_compute; reflexivity.
Defined.

Lemma main_ledger_in_step_witness :
  processed_files
    (main sample.lib (@rev _) (@in_turn _) sample.malicious_broken
       sample.nonmalicious sample.no_files)
  = {["Malicious/cycle.dot"; "Nonmalicious/pair.dot"]}.
Proof.
  assert (Hperm : forall l : list (string * bool), rev l ≡ₚ l)
    by (intros l; symmetry; apply Permutation_rev).
  assert (Hm : rooted "Malicious" sample.malicious_broken)
    by (repeat constructor).
  assert (Hn : rooted "Nonmalicious" sample.nonmalicious)
    by (repeat constructor).
  rewrite (main_ledger_in_step sample.lib (@rev _) (@in_turn _)
             sample.malicious_broken sample.nonmalicious Hperm Hm Hn
             sample.no_files).
  apply set_eq. intros p. rewrite main_sink. cbv zeta.
  unfold get_processed_files. rewrite elem_of_list_to_set.
  vm_compute ledger_entries.
  rewrite elem_of_union, !elem_of_singleton, !elem_of_cons, elem_of_nil. tauto.
Defined.

Section Header.

Variable lib : Library.

Lemma file_paths_of_dot (malicious nonmalicious : walk) (pf : gset string)
    (item : string * bool) :
  item ∈ file_paths_of malicious nonmalicious pf ->
  py.endswith item.1 ".dot" = true.
Proof.
  unfold file_paths_of. rewrite elem_of_app, !elem_of_enumerate.
  intros [(_ & _ & r & fs' & f & _ & _ & Hdot & ->)
         |(_ & _ & r & fs' & f & _ & _ & Hdot & ->)];
    by apply endswith_path_join.
Qed.

(** No row written for a path that ends in [.dot] is the header. *)
Lemma written_not_header ws items :
  Forall (fun it : string * bool => py.endswith it.1 ".dot" = true) items ->
  columns ∉ written lib ws items.
Proof.
  intros Hdot Hin.
  assert (Hhead : "Filename" ∈ omap head (written lib ws items)).
  { apply list_elem_of_omap. exists columns. by split. }
  rewrite written_heads in Hhead.
  apply list_elem_of_fmap in Hhead as (it & Heq & Hit).
  apply (list_elem_of_filter (fun it => has_row lib ws it = true))
    in Hit as [_ Hit].
  rewrite Forall_forall in Hdot. apply Hdot in Hit. rewrite <- Heq in Hit.
  vm_compute in Hit. discriminate.
Qed.

Lemma main_headed_once order appends malicious nonmalicious fs0 :
  (forall l, order l ≡ₚ l) ->
  headed_once (lmoments_csv fs0) ->
  headed_once
    (lmoments_csv (fs (main lib order appends malicious nonmalicious fs0))).
Proof.
  intros Hperm H0. rewrite main_sink. cbv zeta.
  destruct (file_paths_of malicious nonmalicious
              (get_processed_files (lmoments_csv fs0))) as [|item rest] eqn:E;
    [exact H0|].
  assert (Hw : columns ∉ written lib (get_processed_files (lmoments_csv fs0))
                          (order (item :: rest))).
  { apply written_not_header, Forall_forall. intros it Hit.
    rewrite Hperm, <- E in Hit. by apply file_paths_of_dot in Hit. }
  destruct (lmoments_csv fs0) as [[|r rows]|]; cbn [default from_option id app];
    cbn [headed_once app].
  - by split.
  - destruct H0 as [-> Hrows]. split; [reflexivity|].
    rewrite elem_of_app. tauto.
  - by split.
Qed.

(** X12. The result file has one header however often the program is run:
    a file that is absent, empty, or begins with the header and has it in
    no other row is again such a file after any number of runs, whatever
    the corpus of each run and the order in which its pool hands the
    results back. *)
Theorem runs_single_header
    (days : list ((list (string * bool) -> list (string * bool))
                  * (list (list csv_row) -> list csv_row) * walk * walk))
    (fs0 : files) :
  Forall (fun day => forall l, day.1.1.1 l ≡ₚ l) days ->
  headed_once (lmoments_csv fs0) ->
  headed_once (lmoments_csv (runs lib days fs0)).
Proof.
  intros Hdays. revert fs0. unfold runs.
  induction Hdays as [|day days Hday _ IH]; intros fs0 H0; [exact H0|].
  cbn [fold_left]. apply IH. by apply main_headed_once.
Qed.

End Header.

Lemma runs_single_header_witness :
  headed_once
    (lmoments_csv
       (runs sample.lib
          [(@rev _, @in_turn _, sample.malicious_broken, sample.nonmalicious);
           (id, @concat _, sample.malicious, sample.nonmalicious)]
          sample.no_files)).
Proof.
  apply runs_single_header; [|exact I].
  repeat constructor; cbn [fst]; intros l;
    [symmetry; apply Permutation_rev|reflexivity].
Defined.

(** X13. [calculate_centrality_measures] returns all four series or none.
    With four series, the adjacency matrix was built, the degree series is
    its row sums in [float32] with one entry per node, and the other three
    are what the three library calls returned.  With none, the building of
    the adjacency matrix or one of the three library calls raised; an edge
    whose weight is no number makes the first raise.  So the one test
    [process_file] makes, of the degree series, finds every failure. *)
Theorem calculate_centrality_measures_all_or_nothing (lib : Library)
    (G : DiGraph) :
  match calculate_centrality_measures lib G with
  | (Some d, Some b, Some c, Some k) =>
      (exists A, nx.to_numpy_array G = Ok A
                 /\ d = np.sum_axis1 (map (map np.astype_float32) A))
      /\ betweenness_centrality lib G = Ok b
      /\ closeness_centrality lib G = Ok c
      /\ clustering lib (nx.to_undirected G) = Ok k
      /\ length d = length (nodes G)
  | (None, None, None, None) =>
      exists msg,
        nx.to_numpy_array G = Raise msg
        \/ betweenness_centrality lib G = Raise msg
        \/ closeness_centrality lib G = Raise msg
        \/ clustering lib (nx.to_undirected G) = Raise msg
  | _ => False
  end
  /\ (forall u v text,
        (u, v, NotANumber text) ∈ edges G ->
        calculate_centrality_measures lib G = (None, None, None, None)).
Proof.
  split.
  - unfold calculate_centrality_measures.
    destruct (nx.to_numpy_array G) as [A|msg] eqn:EA; cbn; [|eauto].
    destruct (betweenness_centrality lib G) as [b|msg]; cbn; [|eauto].
    destruct (closeness_centrality lib G) as [c|msg]; cbn; [|eauto 6].
    destruct (clustering lib (nx.to_undirected G)) as [k|msg]; cbn; [|eauto 6].
    split; [eauto|]. repeat split.
    unfold nx.to_numpy_array in EA.
    destruct (mapM _ (edges G)); cbn in EA; [|discriminate].
    injection EA as <-.
    unfold calculate_degree_centrality, np.sum_axis1. by rewrite !length_map.
  - intros u v text He. unfold calculate_centrality_measures, nx.to_numpy_array.
    match goal with
    | |- context [mapM ?f (edges G)] =>
        destruct (mapM_raise f (edges G) (u, v, NotANumber text)
                    ("could not convert string to float: '" +:+ text +:+ "'"))
          as [e' ->]; [exact He|reflexivity|reflexivity]
    end.
Qed.

Lemma calculate_centrality_measures_all_or_nothing_witness :
  calculate_centrality_measures sample.lib sample.G_heavy
  = (None, None, None, None)
  /\ process_file sample.lib ∅ ("Malicious/heavy.dot", true) None
     = (None, Some [["Malicious/heavy.dot";
                     "Error calculating centrality measures"]]).
Proof.
  split; [|vm_compute; reflexivity].
  destruct (calculate_centrality_measures_all_or_nothing sample.lib
              sample.G_heavy) as [_ H].
  apply (H "a" "b" "heavy"). by left.
Defined.
